(** * mark2epub: EPUB assembly from Markdown chapters

    A shallow embedding of [src/modules/mark2epub.py] and the properties
    of its documents, archive layout and text transforms.

    Python [str] values are modelled by [string]; a character is an
    [ascii], read as a code point below 256.  Lists are [list], a JSON
    object whose key order matters is an association list, the DOM built
    with [xml.dom.minidom] is a tree of [node]s, and the ZIP archive is the
    list of members in the order in which they were written.

    The file system is a record of what the program reads and writes: the
    files of the project directory, description.json, the entries of
    images/ and css/, and the archive at the output path.  Paths are POSIX
    paths.  What the operator types, what the clock shows, and the text
    that [markdown.markdown] and [toprettyxml] produce are parameters of
    the build.  Not modelled: the console output, the time stamps that
    [zipfile] records for each member, and [copy_and_optimize_image],
    which [main] never calls. *)

From Stdlib Require Import Strings.String Strings.Ascii Lists.List.
From Stdlib Require Import Arith.Arith Bool.Bool Lia.
From Stdlib Require Import Init.Decimal Numbers.DecimalString Numbers.DecimalNat.
From Stdlib Require Import Sorting.Sorted Sorting.Permutation.
Import ListNotations.
Open Scope list_scope.
Open Scope string_scope.

(** ** Python string primitives *)

Module Py.

Definition nl : ascii := "010"%char.

(** [str.isspace] on one character (code points below 256). *)
Definition isspace (c : ascii) : bool :=
  let n := nat_of_ascii c in
  (Nat.leb 9 n && Nat.leb n 13) || (Nat.leb 28 n && Nat.leb n 32)
  || Nat.eqb n 133 || Nat.eqb n 160.

Fixpoint lstrip (s : string) : string :=
  match s with
  | "" => ""
  | String c s' => if isspace c then lstrip s' else s
  end.

Fixpoint rstrip (s : string) : string :=
  match s with
  | "" => ""
  | String c s' =>
      match rstrip s' with
      | "" => if isspace c then "" else String c ""
      | r => String c r
      end
  end.

(** [s.strip()] *)
Definition strip (s : string) : string := rstrip (lstrip s).

(** [s.split(sep)] for a one-character separator: never the empty list. *)
Fixpoint split (sep : ascii) (s : string) : list string :=
  match s with
  | "" => [""]
  | String c s' =>
      if Ascii.eqb c sep then "" :: split sep s'
      else match split sep s' with
           | h :: t => String c h :: t
           | [] => [String c ""]
           end
  end.

(** [sep.join(ls)] *)
Definition join (sep : string) (ls : list string) : string :=
  String.concat sep ls.

(** [ls[0]] and [ls[-1]] on the result of [split], which is never empty. *)
Definition first (ls : list string) : string := hd "" ls.
Definition final (ls : list string) : string := last ls "".

(** [sub in s] *)
Fixpoint contains (sub s : string) : bool :=
  String.prefix sub s ||
  match s with
  | "" => false
  | String _ s' => contains sub s'
  end.

(** [x in ls] for a list of strings *)
Definition mem (x : string) (ls : list string) : bool :=
  existsb (String.eqb x) ls.

(** [s.endswith(suffix)] *)
Fixpoint endswith (s suffix : string) : bool :=
  String.eqb s suffix ||
  match s with
  | "" => false
  | String _ s' => endswith s' suffix
  end.

(** [s.replace(old, new)] for a non-empty [old]: every occurrence, found
    left to right without overlap.  [skip] counts the characters of an
    occurrence that are still to be passed over. *)
Fixpoint replace_from (skip : nat) (old new s : string) : string :=
  match s with
  | "" => ""
  | String c s' =>
      match skip with
      | S k => replace_from k old new s'
      | O =>
          if String.prefix old s
          then new ++ replace_from (String.length old - 1) old new s'
          else String c (replace_from 0 old new s')
      end
  end.

Definition replace (s old new : string) : string := replace_from 0 old new s.

(** ["{:05d}".format(i)] for a non-negative [i]. *)
Fixpoint zeros (n : nat) : string :=
  match n with
  | O => ""
  | S k => String "0" (zeros k)
  end.

Definition decimal (i : nat) : string := NilEmpty.string_of_uint (Nat.to_uint i).

Definition fmt_05d (i : nat) : string :=
  let d := decimal i in zeros (5 - String.length d) ++ d.

(** [enumerate(ls)] *)
Fixpoint enumerate_from {A : Type} (i : nat) (ls : list A) : list (nat * A) :=
  match ls with
  | [] => []
  | x :: ls' => (i, x) :: enumerate_from (S i) ls'
  end.

Definition enumerate {A : Type} (ls : list A) : list (nat * A) :=
  enumerate_from 0 ls.

(** [list(dict.fromkeys(ls))]: duplicates dropped, first occurrences kept
    in order. *)
Fixpoint fromkeys_from (seen ls : list string) : list string :=
  match ls with
  | [] => []
  | x :: ls' =>
      if mem x seen then fromkeys_from seen ls'
      else x :: fromkeys_from (x :: seen) ls'
  end.

Definition fromkeys (ls : list string) : list string := fromkeys_from [] ls.

(** [sorted(ls)] on strings, by insertion; the order on [str] is the
    lexicographic order of code points, which is total, so every stable
    sort returns this list. *)
Fixpoint insert_sorted (x : string) (ls : list string) : list string :=
  match ls with
  | [] => [x]
  | y :: ls' => if String.leb x y then x :: ls else y :: insert_sorted x ls'
  end.

Fixpoint sorted (ls : list string) : list string :=
  match ls with
  | [] => []
  | x :: ls' => insert_sorted x (sorted ls')
  end.

(** [has_char c s]: the character occurs in [s]. *)
Fixpoint has_char (c : ascii) (s : string) : bool :=
  match s with
  | "" => false
  | String x s' => Ascii.eqb x c || has_char c s'
  end.

End Py.

(** ** The DOM of [xml.dom.minidom] *)

Module Minidom.

Inductive node : Type :=
| Element (tagName : string) (attributes : list (string * string))
          (childNodes : list node)
| Text (data : string).

Definition createElement (tag : string) : node := Element tag [] [].

Definition createTextNode (data : string) : node := Text data.

(** An attribute set twice keeps its place and takes the new value. *)
Fixpoint set_attr (k v : string) (attrs : list (string * string))
  : list (string * string) :=
  match attrs with
  | [] => [(k, v)]
  | (k', v') :: rest =>
      if String.eqb k' k then (k, v) :: rest else (k', v') :: set_attr k v rest
  end.

Definition setAttribute (x : node) (k v : string) : node :=
  match x with
  | Element t a c => Element t (set_attr k v a) c
  | Text d => Text d
  end.

Definition appendChild (parent child : node) : node :=
  match parent with
  | Element t a c => Element t a (c ++ [child])
  | Text d => Text d
  end.

Definition tagName (x : node) : string :=
  match x with
  | Element t _ _ => t
  | Text _ => "#text"
  end.

Definition attributes (x : node) : list (string * string) :=
  match x with
  | Element _ a _ => a
  | Text _ => []
  end.

Definition childNodes (x : node) : list node :=
  match x with
  | Element _ _ c => c
  | Text _ => []
  end.

Fixpoint get_attr (k : string) (attrs : list (string * string))
  : option string :=
  match attrs with
  | [] => None
  | (k', v) :: rest => if String.eqb k' k then Some v else get_attr k rest
  end.

Definition getAttribute (x : node) (k : string) : option string :=
  get_attr k (attributes x).

(** The child elements with a given tag, in document order. *)
Definition children_named (tag : string) (x : node) : list node :=
  filter (fun c => String.eqb (tagName c) tag) (childNodes x).

(** [_write_data]: the escapes of character data and attribute values. *)
Fixpoint write_data (s : string) : string :=
  match s with
  | "" => ""
  | String c s' =>
      (if Ascii.eqb c "&" then "&amp;"
       else if Ascii.eqb c "<" then "&lt;"
       else if Ascii.eqb c ">" then "&gt;"
       else if Ascii.eqb c "034" then "&quot;"
       else String c "")
      ++ write_data s'
  end.

(** [Node.writexml] with a tab as [addindent] and a line feed as [newl],
    attributes in the order in which they were set. *)
Fixpoint writexml (indent : string) (x : node) : string :=
  match x with
  | Text d => write_data (indent ++ d ++ String "010" "")
  | Element t attrs children =>
      indent ++ "<" ++ t
      ++ String.concat ""
           (map (fun '(k, v) =>
                   " " ++ k ++ "=" ++ String "034" (write_data v ++ String "034" ""))
                attrs)
      ++ match children with
         | [] => "/>" ++ String "010" ""
         | [Text d] => ">" ++ write_data d ++ "</" ++ t ++ ">" ++ String "010" ""
         | _ =>
             ">" ++ String "010" ""
             ++ String.concat ""
                  (map (writexml (indent ++ String "009" "")) children)
             ++ indent ++ "</" ++ t ++ ">" ++ String "010" ""
         end
  end.

(** [Document.toprettyxml()] of the document whose root is [x], as
    CPython 3.9 to 3.12 print it.  The program's properties are proved
    for every serialiser; this one serves where a concrete archive is
    computed. *)
Definition writexml_document (x : node) : string :=
  "<?xml version=" ++ String "034" ("1.0" ++ String "034" (" ?>" ++ String "010" ""))
  ++ writexml "" x.

End Minidom.

(** ** Data model *)

(** One record of [chapters] in description.json. *)
Record chapter : Type := { markdown : string; css : string }.

(** description.json as [json.load] returns it: every key may be missing. *)
Record stored : Type := {
  s_metadata : option (list (string * string));
  s_default_css : option (list string);
  s_chapters : option (list chapter);
  s_cover_image : option string }.

Definition no_description : stored :=
  {| s_metadata := None; s_default_css := None; s_chapters := None;
     s_cover_image := None |}.

(** The dictionary [json_data] that [main] works on. *)
Record description : Type := {
  metadata : list (string * string);
  default_css : list string;
  chapters : list chapter;
  cover_image : option string }.

(** [d.get(k)] on a dictionary kept as an association list. *)
Fixpoint dict_get (k : string) (d : list (string * string)) : option string :=
  match d with
  | [] => None
  | (k', v) :: rest => if String.eqb k' k then Some v else dict_get k rest
  end.

(** [d[k] = v]: a present key keeps its place. *)
Fixpoint dict_set (k v : string) (d : list (string * string))
  : list (string * string) :=
  match d with
  | [] => [(k, v)]
  | (k', v') :: rest =>
      if String.eqb k' k then (k, v) :: rest else (k', v') :: dict_set k v rest
  end.

Definition get_default (k default : string) (d : list (string * string))
  : string :=
  match dict_get k d with
  | Some v => v
  | None => default
  end.

(** The two readings of [datetime.now()] that the program formats. *)
Record clock : Type := {
  stamp : string;   (* strftime with %Y%m%d%H%M%S *)
  today : string }. (* strftime with %Y-%m-%d *)

(** ** Literals *)

(** The double-quote character and the line feed, as strings. *)
Definition q : string := String "034"%char "".
Definition LF : string := String Py.nl "".

(** [name="value"] *)
Definition att (name value : string) : string := name ++ "=" ++ q ++ value ++ q.

(** A literal that spans several lines. *)
Definition text_lines (ls : list string) : string := Py.join LF ls.

(** ** The image pattern

    [re.finditer] with the pattern [!\[(.*?)\]\((.*?)\)]: a backtracking
    matcher, both groups lazy, [.] matching every character except the
    line feed. *)

Module Pattern.

(** Group 2 and the closing parenthesis: [(.*?)\)] on [s], giving the
    group and the text after the match. *)
Fixpoint match_path (s : string) : option (string * string) :=
  match s with
  | "" => None
  | String c s' =>
      if Ascii.eqb c ")" then Some ("", s')
      else if Ascii.eqb c Py.nl then None
      else match match_path s' with
           | Some (p, rest) => Some (String c p, rest)
           | None => None
           end
  end.

(** [\]\((.*?)\)] on [s]. *)
Definition match_tail (s : string) : option (string * string) :=
  match s with
  | String "]" (String "(" s') => match_path s'
  | _ => None
  end.

(** Group 1 and what follows it: [(.*?)\]\((.*?)\)] on [s].  The rest of
    the pattern is tried first; when it fails, group 1 takes one more
    character. *)
Fixpoint match_alt (s : string) : option (string * string * string) :=
  match match_tail s with
  | Some (p, rest) => Some ("", p, rest)
  | None =>
      match s with
      | "" => None
      | String c s' =>
          if Ascii.eqb c Py.nl then None
          else match match_alt s' with
               | Some (a, p, rest) => Some (String c a, p, rest)
               | None => None
               end
      end
  end.

(** The whole pattern, anchored at the start of [s]: groups 1 and 2 and
    the text after the match. *)
Definition match_at (s : string) : option (string * string * string) :=
  match s with
  | String "!" (String "[" s') => match_alt s'
  | _ => None
  end.

(** The text is cut into the matches, left to right and without overlap,
    and the characters between them. *)
Inductive token : Type :=
| Lit (c : ascii)
| Ref (alt_text image_path : string).

(** [match.group(0)] *)
Definition group0 (alt_text image_path : string) : string :=
  "![" ++ alt_text ++ "](" ++ image_path ++ ")".

Fixpoint scan_from (skip : nat) (s : string) : list token :=
  match s with
  | "" => []
  | String c s' =>
      match skip with
      | S k => scan_from k s'
      | O =>
          match match_at s with
          | Some (a, p, _) =>
              Ref a p :: scan_from (String.length (group0 a p) - 1) s'
          | None => Lit c :: scan_from 0 s'
          end
      end
  end.

Definition scan (s : string) : list token := scan_from 0 s.

(** [match.groups()] of every match, in order. *)
Fixpoint matches (ts : list token) : list (string * string) :=
  match ts with
  | [] => []
  | Lit _ :: ts' => matches ts'
  | Ref a p :: ts' => (a, p) :: matches ts'
  end.

Definition finditer (s : string) : list (string * string) := matches (scan s).

End Pattern.

(** [Path(s).name] on a POSIX path: the last component that is neither
    empty nor a single dot, or the empty string. *)
Definition path_name (s : string) : string :=
  Py.final
    (filter (fun x => negb (String.eqb x "") && negb (String.eqb x "."))
       (Py.split "/" s)).

(** The file name that a reference is resolved by. *)
Definition image_name (image_path : string) : string :=
  path_name (Py.strip image_path).

Definition new_ref (alt_text image_path : string) : string :=
  "![" ++ alt_text ++ "](images/" ++ image_name image_path ++ ")".

(** [exists_ name] stands for [(work_dir / 'images' / name).exists()],
    the test that the loop makes on the file name of each match. *)
Definition process_markdown_for_images (exists_ : string -> bool)
    (markdown_text : string) : string * list string :=
  fold_left
    (fun '(modified_text, images_found) '(alt_text, image_path) =>
       if exists_ (image_name image_path) then
         (Py.replace modified_text (Pattern.group0 alt_text image_path)
            (new_ref alt_text image_path),
          images_found ++ [image_name image_path])%list
       else (modified_text, images_found))
    (Pattern.finditer markdown_text) (markdown_text, []).

(** [get_all_filenames]: [the_dir] is the listing of the directory, [None]
    when it does not exist. *)
Definition get_all_filenames (the_dir : option (list string))
    (extensions : list string) : list string :=
  match the_dir with
  | None => []
  | Some listing =>
      let all_files := listing in
      filter (fun x => Py.mem (Py.final (Py.split "." x)) extensions) all_files
  end.

(** ** Files, the archive and the operator *)

(** A project directory: the regular files directly in it with their
    text, description.json as parsed when it is there, and the entries of
    images/ and css/ with their bytes, [None] when the directory is
    missing. *)
Record project : Type := {
  files : list (string * string);
  description_json : option stored;
  images : option (list (string * string));
  css_files : option (list (string * string)) }.

Inductive compression : Type := ZIP_STORED | ZIP_DEFLATED.

Record member : Type := {
  arcname : string;
  data : string;
  compress_type : compression }.

(** The file system that a build sees: the project directory, [None] when
    it does not exist, and the archive at the output path, [None] as long
    as no file was opened there. *)
Record world : Type := {
  work_dir : option project;
  epub : option (list member) }.

(** [ZipFile.writestr]: the member is added after those already written. *)
Definition writestr (archive : list member) (name data : string)
    (ct : compression) : list member :=
  (archive ++ [{| arcname := name; data := data; compress_type := ct |}])%list.

(** What the operator does when [review_markdown] asks about a chapter:
    declines, opens the file and quits, opens it and confirms (the file
    then holds [updated]), or the viewer cannot be started. *)
Inductive review_answer : Type :=
| ReviewNo
| ReviewQuit
| ReviewDone (updated : string)
| ReviewOpenFailed.

Inductive outcome : Type :=
| Completed
| Aborted
| Raised (exception : string).

(** [os.listdir(work_dir)] *)
Definition listdir (p : project) : list string :=
  (map fst (files p)
   ++ (match description_json p with Some _ => ["description.json"] | None => [] end)
   ++ (match images p with Some _ => ["images"] | None => [] end)
   ++ (match css_files p with Some _ => ["css"] | None => [] end))%list.

(** [(work_dir / 'images' / name).exists()]: the empty name is images/
    itself and [..] is the project directory. *)
Definition image_path_exists (p : project) (name : string) : bool :=
  match images p with
  | None => false
  | Some entries =>
      String.eqb name "" || String.eqb name ".."
      || Py.mem name (map fst entries)
  end.

(** The bytes of a file of a directory listing. *)
Definition read_file (name : string) (entries : list (string * string))
  : option string := dict_get name entries.

(** ** The package document, OPS/package.opf *)

Section Mark2Epub.

(** Library functions whose text output no property here depends on:
    [Document.toprettyxml] of minidom and [markdown.markdown] with the
    extensions that [get_chapter_XML] passes. *)
Variable toprettyxml : Minidom.node -> string.
Variable markdown_markdown : string -> string.

Import Minidom.

(** The body of the loop over [description_data["metadata"].items()]. *)
Definition metadata_entry (metadata : node) (kv : string * string) : node :=
  let '(k, v) := kv in
  if negb (Nat.eqb (String.length v) 0) then
    let x := createElement k in
    let x :=
      fold_left
        (fun x '(metadata_type, id_label) =>
           if String.eqb k metadata_type
           then setAttribute x "id" id_label else x)
        [("dc:title", "title"); ("dc:creator", "creator");
         ("dc:identifier", "book-id")]
        x in
    let x := appendChild x (createTextNode v) in
    appendChild metadata x
  else metadata.

Definition opf_metadata (items : list (string * string)) : node :=
  fold_left metadata_entry items
    (setAttribute (createElement "metadata")
       "xmlns:dc" "http://purl.org/dc/elements/1.1/").

(** The three fixed manifest items: TOC.xhtml, toc.ncx, titlepage.xhtml. *)
Definition opf_manifest_head : node :=
  let manifest := createElement "manifest" in
  let x := createElement "item" in
  let x := setAttribute x "id" "toc" in
  let x := setAttribute x "properties" "nav" in
  let x := setAttribute x "href" "TOC.xhtml" in
  let x := setAttribute x "media-type" "application/xhtml+xml" in
  let manifest := appendChild manifest x in
  let x := createElement "item" in
  let x := setAttribute x "id" "ncx" in
  let x := setAttribute x "href" "toc.ncx" in
  let x := setAttribute x "media-type" "application/x-dtbncx+xml" in
  let manifest := appendChild manifest x in
  let x := createElement "item" in
  let x := setAttribute x "id" "titlepage" in
  let x := setAttribute x "href" "titlepage.xhtml" in
  let x := setAttribute x "media-type" "application/xhtml+xml" in
  appendChild manifest x.

(** One manifest item per chapter. *)
Definition opf_manifest_chapters (manifest : node) (md_filenames : list string)
  : node :=
  fold_left
    (fun manifest '(i, md_filename) =>
       let x := createElement "item" in
       let x := setAttribute x "id" ("s" ++ Py.fmt_05d i) in
       let x :=
         setAttribute x "href"
           ("s" ++ Py.fmt_05d i ++ "-"
            ++ Py.first (Py.split "." md_filename) ++ ".xhtml") in
       let x := setAttribute x "media-type" "application/xhtml+xml" in
       appendChild manifest x)
    (Py.enumerate md_filenames) manifest.

(** [image_filename == description_data.get("cover_image")] *)
Definition is_cover (image_filename : string) (cover : option string) : bool :=
  match cover with
  | Some c => String.eqb image_filename c
  | None => false
  end.

(** The body of the loop over the images; the cover image also adds a
    [meta] element to [metadata], which the loop therefore carries along. *)
Definition image_entry (cover : option string) (acc : node * node)
    (x : nat * string) : node * node :=
  let '(metadata, manifest) := acc in
  let '(i, image_filename) := x in
  let x := createElement "item" in
  let x := setAttribute x "id" ("image-" ++ Py.fmt_05d i) in
  let x := setAttribute x "href" ("images/" ++ image_filename) in
  let x :=
    if Py.contains "gif" image_filename
    then setAttribute x "media-type" "image/gif"
    else if Py.contains "jpg" image_filename
            || Py.contains "jpeg" image_filename
    then setAttribute x "media-type" "image/jpeg"
    else if Py.contains "png" image_filename
    then setAttribute x "media-type" "image/png"
    else x in
  if is_cover image_filename cover then
    let x := setAttribute x "properties" "cover-image" in
    let y := createElement "meta" in
    let y := setAttribute y "name" "cover" in
    let y := setAttribute y "content" ("image-" ++ Py.fmt_05d i) in
    (appendChild metadata y, appendChild manifest x)
  else (metadata, appendChild manifest x).

Definition opf_manifest_images (metadata manifest : node)
    (image_filenames : list string) (cover : option string) : node * node :=
  fold_left (image_entry cover) (Py.enumerate image_filenames)
    (metadata, manifest).

(** One manifest item per style sheet. *)
Definition opf_manifest_css (manifest : node) (css_filenames : list string)
  : node :=
  fold_left
    (fun manifest '(i, css_filename) =>
       let x := createElement "item" in
       let x := setAttribute x "id" ("css-" ++ Py.fmt_05d i) in
       let x := setAttribute x "href" ("css/" ++ css_filename) in
       let x := setAttribute x "media-type" "text/css" in
       appendChild manifest x)
    (Py.enumerate css_filenames) manifest.

(** The spine: the title page, then one itemref per chapter. *)
Definition opf_spine (md_filenames : list string) : node :=
  let spine := createElement "spine" in
  let spine := setAttribute spine "toc" "ncx" in
  let x := createElement "itemref" in
  let x := setAttribute x "idref" "titlepage" in
  let x := setAttribute x "linear" "yes" in
  let spine := appendChild spine x in
  fold_left
    (fun spine '(i, md_filename) =>
       let x := createElement "itemref" in
       let x := setAttribute x "idref" ("s" ++ Py.fmt_05d i) in
       let x := setAttribute x "linear" "yes" in
       appendChild spine x)
    (Py.enumerate (A:=string) md_filenames) spine.

Definition opf_guide : node :=
  let guide := createElement "guide" in
  let x := createElement "reference" in
  let x := setAttribute x "type" "cover" in
  let x := setAttribute x "title" "Cover image" in
  let x := setAttribute x "href" "titlepage.xhtml" in
  appendChild guide x.

(** The [package] element that [get_packageOPF_XML] appends to the
    document before it serialises it. *)
Definition packageOPF_document (md_filenames image_filenames
    css_filenames : list string) (description_data : description) : node :=
  let package := createElement "package" in
  let package := setAttribute package "xmlns" "http://www.idpf.org/2007/opf" in
  let package := setAttribute package "version" "3.0" in
  let package := setAttribute package "xml:lang" "en" in
  let package := setAttribute package "unique-identifier" "pub-id" in
  let metadata := opf_metadata (metadata description_data) in
  let manifest := opf_manifest_head in
  let manifest := opf_manifest_chapters manifest md_filenames in
  let '(metadata, manifest) :=
    opf_manifest_images metadata manifest image_filenames
      (cover_image description_data) in
  let manifest := opf_manifest_css manifest css_filenames in
  let spine := opf_spine md_filenames in
  let guide := opf_guide in
  let package := appendChild package metadata in
  let package := appendChild package manifest in
  let package := appendChild package spine in
  appendChild package guide.

Definition get_packageOPF_XML (md_filenames image_filenames
    css_filenames : list string) (description_data : description) : string :=
  toprettyxml
    (packageOPF_document md_filenames image_filenames css_filenames
       description_data).

(** ** The fixed documents and the two tables of contents *)

Definition get_container_XML : string :=
  text_lines
    [ "<?xml " ++ att "version" "1.0" ++ " " ++ att "encoding" "UTF-8" ++ " ?>";
      "<container " ++ att "version" "1.0" ++ " "
        ++ att "xmlns" "urn:oasis:names:tc:opendocument:xmlns:container" ++ ">";
      "<rootfiles>";
      "<rootfile " ++ att "full-path" "OPS/package.opf" ++ " "
        ++ att "media-type" "application/oebps-package+xml" ++ "/>";
      "</rootfiles>";
      "</container>" ].

Definition get_coverpage_XML (title authors : string) : string :=
  text_lines
    [ "<?xml " ++ att "version" "1.0" ++ " " ++ att "encoding" "utf-8" ++ "?>";
      "<html " ++ att "xmlns" "http://www.w3.org/1999/xhtml" ++ " "
        ++ att "xml:lang" "en" ++ ">";
      "<head>";
      "<title>Cover Page</title>";
      "<style " ++ att "type" "text/css" ++ ">";
      "body { ";
      "    margin: 0;";
      "    padding: 0;";
      "    height: 100vh;";
      "    display: flex;";
      "    justify-content: center;";
      "    align-items: center;";
      "    font-family: serif;";
      "}";
      ".cover {";
      "    padding: 3em;";
      "    text-align: center;";
      "    border: 1px solid #ccc;";
      "    max-width: 80%;";
      "}";
      "h1 {";
      "    font-size: 2em;";
      "    margin-bottom: 1em;";
      "    line-height: 1.2;";
      "    color: #333;";
      "}";
      "p {";
      "    font-size: 1.2em;";
      "    font-style: italic;";
      "    color: #666;";
      "    line-height: 1.4;";
      "}";
      "</style>";
      "</head>";
      "<body>";
      "    <div " ++ att "class" "cover" ++ ">";
      "        <h1>" ++ title ++ "</h1>";
      "        <p>" ++ authors ++ "</p>";
      "    </div>";
      "</body>";
      "</html>" ].

Definition toc_xhtml_head : string :=
  text_lines
    [ "<?xml " ++ att "version" "1.0" ++ " " ++ att "encoding" "UTF-8" ++ "?>";
      "<html " ++ att "xmlns" "http://www.w3.org/1999/xhtml" ++ " "
        ++ att "xmlns:epub" "http://www.idpf.org/2007/ops" ++ " "
        ++ att "lang" "en" ++ ">";
      "<head>";
      "<meta " ++ att "http-equiv" "default-style" ++ " "
        ++ att "content" "text/html; charset=utf-8" ++ "/>";
      "<title>Contents</title>";
      "" ].

Definition toc_xhtml_nav : string :=
  text_lines
    [ "</head>";
      "<body>";
      "<nav " ++ att "epub:type" "toc" ++ " " ++ att "role" "doc-toc" ++ " "
        ++ att "id" "toc" ++ ">";
      "<h2>Contents</h2>";
      "<ol " ++ att "epub:type" "list" ++ ">" ].

Definition toc_xhtml_tail : string :=
  text_lines [ "</ol>"; "</nav>"; "</body>"; "</html>" ].

Definition get_TOC_XML (default_css_filenames markdown_filenames : list string)
  : string :=
  let toc_xhtml := toc_xhtml_head in
  let toc_xhtml :=
    fold_left
      (fun toc_xhtml css_filename =>
         toc_xhtml ++ "<link " ++ att "rel" "stylesheet" ++ " "
           ++ att "href" ("css/" ++ css_filename) ++ " "
           ++ att "type" "text/css" ++ "/>" ++ LF)
      default_css_filenames toc_xhtml in
  let toc_xhtml := toc_xhtml ++ toc_xhtml_nav in
  let toc_xhtml :=
    fold_left
      (fun toc_xhtml '(i, md_filename) =>
         toc_xhtml ++ "<li><a href=" ++ q ++ "s" ++ Py.fmt_05d i ++ "-"
           ++ Py.first (Py.split "." md_filename) ++ ".xhtml" ++ q ++ ">"
           ++ Py.first (Py.split "." md_filename) ++ "</a></li>")
      (Py.enumerate markdown_filenames) toc_xhtml in
  toc_xhtml ++ toc_xhtml_tail.

Definition toc_ncx_head : string :=
  text_lines
    [ "<?xml " ++ att "version" "1.0" ++ " " ++ att "encoding" "UTF-8" ++ "?>";
      "<ncx " ++ att "xmlns" "http://www.daisy.org/z3986/2005/ncx/" ++ " "
        ++ att "xml:lang" "fr" ++ " " ++ att "version" "2005-1" ++ ">";
      "<head>";
      "</head>";
      "<navMap>";
      "" ].

Definition toc_ncx_tail : string := text_lines [ "</navMap>"; "</ncx>" ].

Definition get_TOCNCX_XML (markdown_filenames : list string) : string :=
  let toc_ncx := toc_ncx_head in
  let toc_ncx :=
    fold_left
      (fun toc_ncx '(i, md_filename) =>
         toc_ncx
           ++ text_lines
                [ "<navPoint id=" ++ q ++ "navpoint-" ++ Py.decimal i ++ q ++ ">";
                  "<navLabel>";
                  "<text>" ++ Py.first (Py.split "." md_filename) ++ "</text>";
                  "</navLabel><content src=" ++ q ++ "s" ++ Py.fmt_05d i ++ "-"
                    ++ Py.first (Py.split "." md_filename) ++ ".xhtml" ++ q ++ "/>";
                  "</navPoint>" ])
      (Py.enumerate markdown_filenames) toc_ncx in
  toc_ncx ++ toc_ncx_tail.

(** ** Chapters *)

(** The two lines of [get_chapter_XML] that precede the image pass. *)
Definition corrected_markdown (markdown_data : string) : string :=
  let lines := Py.split Py.nl (Py.strip markdown_data) in
  Py.join (LF ++ LF) lines.

Definition chapter_shell (md_filename : string) (css_filenames : list string)
    (html_text : string) : string :=
  text_lines
    [ "<?xml " ++ att "version" "1.0" ++ " " ++ att "encoding" "UTF-8" ++ "?>";
      "<html " ++ att "xmlns" "http://www.w3.org/1999/xhtml" ++ " "
        ++ att "xmlns:epub" "http://www.idpf.org/2007/ops" ++ " "
        ++ att "lang" "en" ++ ">";
      "<head>";
      "    <meta " ++ att "http-equiv" "default-style" ++ " "
        ++ att "content" "text/html; charset=utf-8" ++ "/>";
      "    <title>" ++ Py.first (Py.split "." md_filename) ++ "</title>";
      "    " ++ Py.join ""
                  (map (fun css =>
                          "<link " ++ att "rel" "stylesheet" ++ " "
                            ++ att "href" ("css/" ++ css) ++ " "
                            ++ att "type" "text/css" ++ " "
                            ++ att "media" "all" ++ "/>")
                       css_filenames);
      "</head>";
      "<body>";
      html_text;
      "</body>";
      "</html>" ].

(** [markdown_data] is the text given as [content], or read from the
    chapter file when [content] is [None]. *)
Definition get_chapter_XML (exists_ : string -> bool) (md_filename : string)
    (css_filenames : list string) (markdown_data : string)
  : string * list string :=
  let corrected := corrected_markdown markdown_data in
  let '(final_markdown, chapter_images) :=
    process_markdown_for_images exists_ corrected in
  let html_text := markdown_markdown final_markdown in
  (chapter_shell md_filename css_filenames html_text, chapter_images).

(** ** Metadata *)

(** [input] gives the line typed at a prompt. *)
Variable input : string -> string.

Definition get_user_input (prompt default : string) : string :=
  let user_input := Py.strip (input (prompt ++ " [" ++ default ++ "]: ")) in
  if negb (String.eqb user_input "") then user_input else default.

Definition get_metadata_from_user (now : clock) (existing_metadata : stored)
  : description :=
  let metadata :=
    match s_metadata existing_metadata with Some m => m | None => [] end in
  let fields :=
    [ ("dc:title", ("Title", get_default "dc:title" "Untitled Document" metadata));
      ("dc:creator", ("Author(s)", get_default "dc:creator" "Unknown Author" metadata));
      ("dc:identifier",
       ("Unique Identifier", get_default "dc:identifier" ("id-" ++ stamp now) metadata));
      ("dc:language",
       ("Language (e.g., en, de, fr)", get_default "dc:language" "en" metadata));
      ("dc:rights", ("Rights", get_default "dc:rights" "All rights reserved" metadata));
      ("dc:publisher", ("Publisher", get_default "dc:publisher" "PDF2EPUB" metadata));
      ("dc:date",
       ("Publication Date (YYYY-MM-DD)", get_default "dc:date" (today now) metadata)) ] in
  let updated_metadata :=
    fold_left
      (fun updated_metadata '(key, (prompt, default)) =>
         let value := get_user_input prompt default in
         dict_set key value updated_metadata)
      fields [] in
  {| metadata := updated_metadata;
     default_css :=
       match s_default_css existing_metadata with Some l => l | None => [] end;
     chapters :=
       match s_chapters existing_metadata with Some l => l | None => [] end;
     cover_image := s_cover_image existing_metadata |}.

(** ** The build *)

(** [reviewer] gives the operator's answer for a chapter file. *)
Variable reviewer : string -> review_answer.

(** [review_markdown]: [None] when reading the file raises. *)
Definition review_markdown (p : project) (md_filename : string)
  : option (bool * string) :=
  match read_file md_filename (files p) with
  | None => None
  | Some content =>
      match reviewer md_filename with
      | ReviewNo => Some (true, content)
      | ReviewQuit => Some (false, content)
      | ReviewDone updated => Some (true, updated)
      | ReviewOpenFailed => Some (true, content)
      end
  end.

Definition indent_css : string :=
  text_lines
    [ "";
      "p {";
      "  text-indent: 1.5em;";
      "  margin-top: 0;";
      "  margin-bottom: 0;";
      "}";
      "";
      "/* For starting chapters/sections on a new page */";
      "h1, h2, h3, h4 {";
      "  page-break-before: always;";
      "  text-align: center;";
      "  margin-top: 3em;";
      "  margin-bottom: 1.5em;";
      "  line-height: 1.2;";
      "}";
      "" ].

(** [css_dir_path.mkdir(exist_ok=True)] and the default style sheet. *)
Definition ensure_stylesheet (p : project) : project :=
  let css := match css_files p with Some l => l | None => [] end in
  let css :=
    if Py.mem "stylesheet.css" (map fst css) then css
    else (css ++ [("stylesheet.css", indent_css)])%list in
  {| files := files p; description_json := description_json p;
     images := images p; css_files := Some css |}.

(** The metadata step of [main]: description.json merged with the
    operator's answers, the style sheet and the chapter list added. *)
Definition load_description (now : clock) (p : project) : description :=
  let existing_metadata :=
    match description_json p with Some d => d | None => no_description end in
  let json_data := get_metadata_from_user now existing_metadata in
  let css :=
    if negb (Py.mem "stylesheet.css" (default_css json_data))
    then (default_css json_data ++ ["stylesheet.css"])%list
    else default_css json_data in
  let chs :=
    match chapters json_data with
    | [] =>
        let markdown_files :=
          filter (fun f => Py.endswith f ".md") (listdir p) in
        map (fun md_file => {| markdown := md_file; css := "" |})
          (Py.sorted markdown_files)
    | chs => chs
    end in
  {| metadata := metadata json_data; default_css := css; chapters := chs;
     cover_image := cover_image json_data |}.

(** [json.dump(json_data, f)] into description.json. *)
Definition save_description (json_data : description) (p : project) : project :=
  {| files := files p;
     description_json :=
       Some {| s_metadata := Some (metadata json_data);
               s_default_css := Some (default_css json_data);
               s_chapters := Some (chapters json_data);
               s_cover_image := cover_image json_data |};
     images := images p; css_files := css_files p |}.

(** The review loop: the dictionary [chapter_contents], or the way the
    loop was left. *)
Fixpoint review_chapters (p : project) (chs : list chapter)
    (chapter_contents : list (string * string))
  : outcome + list (string * string) :=
  match chs with
  | [] => inr chapter_contents
  | ch :: chs' =>
      match review_markdown p (markdown ch) with
      | None => inl (Raised "FileNotFoundError")
      | Some (should_continue, content) =>
          if negb should_continue then inl Aborted
          else review_chapters p chs'
                 (dict_set (markdown ch) content chapter_contents)
      end
  end.

(** The rendering loop: the dictionary [chapter_data]. *)
Definition render_chapters (p : project) (json_data : description)
    (chapter_contents : list (string * string)) : list (string * string) :=
  fold_left
    (fun chapter_data ch =>
       let md_filename := markdown ch in
       let css_files := default_css json_data in
       let '(chapter_xhtml, chapter_images) :=
         get_chapter_XML (image_path_exists p) md_filename css_files
           (get_default md_filename "" chapter_contents) in
       dict_set md_filename chapter_xhtml chapter_data)
    (chapters json_data) [].

(** The body of [with zipfile.ZipFile(output_path, "w") as epub]. *)
Definition write_epub (p : project) (json_data : description)
    (chapter_data : list (string * string)) : list member :=
  let title := get_default "dc:title" "Untitled Document" (metadata json_data) in
  let authors := get_default "dc:creator" "Unknown Author" (metadata json_data) in
  let all_md_filenames := map markdown (chapters json_data) in
  let all_css_filenames := Py.fromkeys (default_css json_data) in
  let epub := [] in
  let epub := writestr epub "mimetype" "application/epub+zip" ZIP_STORED in
  let epub :=
    writestr epub "META-INF/container.xml" get_container_XML ZIP_DEFLATED in
  let all_available_images :=
    get_all_filenames (option_map (map fst) (images p))
      ["gif"; "jpg"; "jpeg"; "png"] in
  let epub :=
    writestr epub "OPS/package.opf"
      (get_packageOPF_XML all_md_filenames all_available_images
         all_css_filenames json_data)
      ZIP_DEFLATED in
  let epub :=
    writestr epub "OPS/titlepage.xhtml" (get_coverpage_XML title authors)
      ZIP_DEFLATED in
  let epub :=
    fold_left
      (fun epub '(i, md_filename) =>
         writestr epub
           ("OPS/s" ++ Py.fmt_05d i ++ "-"
            ++ Py.first (Py.split "." md_filename) ++ ".xhtml")
           (get_default md_filename "" chapter_data)
           ZIP_DEFLATED)
      (Py.enumerate all_md_filenames) epub in
  let epub :=
    fold_left
      (fun epub image_name =>
         writestr epub ("OPS/images/" ++ image_name)
           (get_default image_name ""
              (match images p with Some l => l | None => [] end))
           ZIP_DEFLATED)
      all_available_images epub in
  let epub :=
    writestr epub "OPS/TOC.xhtml"
      (get_TOC_XML all_css_filenames all_md_filenames) ZIP_DEFLATED in
  let epub :=
    writestr epub "OPS/toc.ncx" (get_TOCNCX_XML all_md_filenames)
      ZIP_DEFLATED in
  match css_files p with
  | None => epub
  | Some css_dir =>
      fold_left
        (fun epub css =>
           match read_file css css_dir with
           | Some bytes => writestr epub ("OPS/css/" ++ css) bytes ZIP_DEFLATED
           | None => epub
           end)
        all_css_filenames epub
  end.

(** [main([work_dir, output_path])] on a project directory that exists. *)
Definition main (now : clock) (p : project) (w : world) : world * outcome :=
  let p := ensure_stylesheet p in
  let json_data := load_description now p in
  let p := save_description json_data p in
  match review_chapters p (chapters json_data) [] with
  | inl stop => ({| work_dir := Some p; epub := epub w |}, stop)
  | inr chapter_contents =>
      let chapter_data := render_chapters p json_data chapter_contents in
      ({| work_dir := Some p;
          epub := Some (write_epub p json_data chapter_data) |},
       Completed)
  end.

(** [markdown_dir.glob('*.md')] *)
Definition glob_md (p : project) : list string :=
  filter (fun f => Py.endswith f ".md") (listdir p).

Definition convert_to_epub (now : clock) (w : world) : world * outcome :=
  match work_dir w with
  | None => (w, Raised "FileNotFoundError")
  | Some p =>
      match glob_md p with
      | [] => (w, Raised "ValueError")
      | _ => main now p w
      end
  end.

End Mark2Epub.

(** ** Reference definitions, in the words of the specification *)

(** The part of a file name after its last dot; the whole name when it
    has no dot. *)
Inductive after_last_dot (ext : string) : string -> Prop :=
| no_dot : Py.has_char "." ext = false -> after_last_dot ext ext
| dotted (stem : string) :
    Py.has_char "." ext = false ->
    after_last_dot ext (stem ++ "." ++ ext).

(** A blank line between every two lines: every line feed doubled. *)
Fixpoint double_newlines (s : string) : string :=
  match s with
  | "" => ""
  | String c s' =>
      if Ascii.eqb c Py.nl then String Py.nl (String Py.nl (double_newlines s'))
      else String c (double_newlines s')
  end.

(** [all_space s]: white space only. *)
Fixpoint all_space (s : string) : bool :=
  match s with
  | "" => true
  | String c s' => Py.isspace c && all_space s'
  end.

(** The line doubling of the specification, on the text as given. *)
Definition line_doubling (markdown_text : string) : string :=
  Py.join (LF ++ LF) (Py.split Py.nl markdown_text).

(** ** The package document, element by element *)

Import Minidom.

(** The manifest item of chapter [i]. *)
Definition chapter_item (x : nat * string) : node :=
  let '(i, md_filename) := x in
  Element "item"
    [ ("id", "s" ++ Py.fmt_05d i);
      ("href", "s" ++ Py.fmt_05d i ++ "-"
               ++ Py.first (Py.split "." md_filename) ++ ".xhtml");
      ("media-type", "application/xhtml+xml") ]
    [].

(** The media type that the image loop derives from a file name. *)
Definition image_media_type (image_filename : string) : option string :=
  if Py.contains "gif" image_filename then Some "image/gif"
  else if Py.contains "jpg" image_filename || Py.contains "jpeg" image_filename
  then Some "image/jpeg"
  else if Py.contains "png" image_filename then Some "image/png"
  else None.

(** The manifest item of image [i]. *)
Definition image_item (cover : option string) (x : nat * string) : node :=
  let '(i, image_filename) := x in
  Element "item"
    ([ ("id", "image-" ++ Py.fmt_05d i); ("href", "images/" ++ image_filename) ]
     ++ match image_media_type image_filename with
        | Some t => [("media-type", t)]
        | None => []
        end
     ++ if is_cover image_filename cover then [("properties", "cover-image")]
        else [])
    [].

(** The [meta] elements that the image loop adds to the metadata. *)
Definition cover_metas (cover : option string) (l : list (nat * string))
  : list node :=
  flat_map
    (fun '(i, image_filename) =>
       if is_cover image_filename cover
       then [Element "meta"
               [("name", "cover"); ("content", "image-" ++ Py.fmt_05d i)] []]
       else [])
    l.

Definition css_item (x : nat * string) : node :=
  let '(i, css_filename) := x in
  Element "item"
    [ ("id", "css-" ++ Py.fmt_05d i); ("href", "css/" ++ css_filename);
      ("media-type", "text/css") ]
    [].

Definition spine_itemref (x : nat * string) : node :=
  let '(i, _) := x in
  Element "itemref" [("idref", "s" ++ Py.fmt_05d i); ("linear", "yes")] [].

(** The element that the metadata loop emits for one field. *)
Definition metadata_element (kv : string * string) : list node :=
  let '(k, v) := kv in
  if String.eqb v "" then []
  else
    [Element k
       (if String.eqb k "dc:title" then [("id", "title")]
        else if String.eqb k "dc:creator" then [("id", "creator")]
        else if String.eqb k "dc:identifier" then [("id", "book-id")]
        else [])
       [Text v]].

(** The three fixed items at the head of the manifest. *)
Definition manifest_head_items : list node :=
  [ Element "item"
      [ ("id", "toc"); ("properties", "nav"); ("href", "TOC.xhtml");
        ("media-type", "application/xhtml+xml") ] [];
    Element "item"
      [ ("id", "ncx"); ("href", "toc.ncx");
        ("media-type", "application/x-dtbncx+xml") ] [];
    Element "item"
      [ ("id", "titlepage"); ("href", "titlepage.xhtml");
        ("media-type", "application/xhtml+xml") ] [] ].

(** The children of the child elements of [package] that carry [tag]:
    the metadata elements, the manifest items, the spine itemrefs. *)
Definition opf_children (tag : string) (package : node) : list node :=
  flat_map childNodes (children_named tag package).

(** ** The numbering of chapters *)

(** The name of a chapter file up to its first dot. *)
Definition basename (md_filename : string) : string :=
  Py.first (Py.split "." md_filename).

(** The manifest id of chapter [i] and the name of its content document. *)
Definition chapter_id (i : nat) : string := "s" ++ Py.fmt_05d i.

Definition chapter_href (i : nat) (md_filename : string) : string :=
  chapter_id i ++ "-" ++ basename md_filename ++ ".xhtml".

(** The list entry of chapter [i] in TOC.xhtml and its navPoint in
    toc.ncx. *)
Definition toc_entry (x : nat * string) : string :=
  let '(i, md_filename) := x in
  "<li><a " ++ att "href" (chapter_href i md_filename) ++ ">"
    ++ basename md_filename ++ "</a></li>".

Definition ncx_entry (x : nat * string) : string :=
  let '(i, md_filename) := x in
  text_lines
    [ "<navPoint " ++ att "id" ("navpoint-" ++ Py.decimal i) ++ ">";
      "<navLabel>";
      "<text>" ++ basename md_filename ++ "</text>";
      "</navLabel><content " ++ att "src" (chapter_href i md_filename) ++ "/>";
      "</navPoint>" ].

Definition toc_link (css_filename : string) : string :=
  "<link " ++ att "rel" "stylesheet" ++ " "
    ++ att "href" ("css/" ++ css_filename) ++ " "
    ++ att "type" "text/css" ++ "/>" ++ LF.

(** ** Archive members and a sample project *)

Definition deflated (name bytes : string) : member :=
  {| arcname := name; data := bytes; compress_type := ZIP_DEFLATED |}.

(** The style sheets of the description that are files of css/. *)
Definition css_members (p : project) (all_css_filenames : list string)
  : list member :=
  match css_files p with
  | None => []
  | Some css_dir =>
      flat_map
        (fun css =>
           match read_file css css_dir with
           | Some bytes => [deflated ("OPS/css/" ++ css) bytes]
           | None => []
           end)
        all_css_filenames
  end.


(** Two chapters, no description.json, no images/ and no css/; the
    operator accepts every default and reviews nothing. *)
Definition sample_project : project :=
  {| files := [("a.md", "One."); ("b.md", "Two.")];
     description_json := None; images := None; css_files := None |}.

Definition sample_world : world :=
  {| work_dir := Some sample_project; epub := None |}.

Definition sample_clock : clock :=
  {| stamp := "20240101120000"; today := "2024-01-01" |}.

Definition sample_build : world * outcome :=
  main Minidom.writexml_document (fun s => s) (fun _ => "")
    (fun _ => ReviewNo) sample_clock sample_project sample_world.

(** ** The image pass, reference by reference *)

(** [no_pair c1 c2 s]: the character [c1] is nowhere in [s] followed
    by [c2]. *)
Fixpoint no_pair (c1 c2 : ascii) (s : string) : bool :=
  match s with
  | String x ((String y _) as s') =>
      negb (Ascii.eqb x c1 && Ascii.eqb y c2) && no_pair c1 c2 s'
  | _ => true
  end.













(** ** Further reference definitions *)

(** [int(s)] for a text of decimal digits. *)
Definition index_of (s : string) : option nat :=
  option_map Nat.of_uint (NilEmpty.uint_of_string s).

(** The ids of the manifest items of a package document, in order. *)
Definition manifest_ids (package : node) : list (option string) :=
  map (fun item => getAttribute item "id") (opf_children "manifest" package).

(** The chapters that description.json stores: none when the file or
    the key is missing. *)
Definition stored_chapters (p : project) : list chapter :=
  match description_json p with
  | Some d => match s_chapters d with Some l => l | None => [] end
  | None => []
  end.


(** The order of [str]: code point by code point. *)
Definition str_le (a b : string) : Prop := String.leb a b = true.

(** * Properties *)

(** ** The string primitives on examples *)

Example fmt_05d_7 : Py.fmt_05d 7 = "00007".
Proof. reflexivity. Qed.

Example fmt_05d_wide : Py.fmt_05d 123456 = "123456".
Proof. reflexivity. Qed.

Example split_trailing : Py.split "." "a.b." = ["a"; "b"; ""].
Proof. reflexivity. Qed.

Example replace_all : Py.replace "abcabc" "bc" "X" = "aXaX".
Proof. reflexivity. Qed.

Example strip_both : Py.strip (String Py.nl " a b  ") = "a b".
Proof. reflexivity. Qed.

(** ** Strings *)

Lemma append_nil_r (s : string) : s ++ "" = s.
Proof. induction s as [|c s IH]; simpl; [reflexivity | now rewrite IH]. Qed.

Lemma append_assoc (s t u : string) : (s ++ t) ++ u = s ++ (t ++ u).
Proof. induction s as [|c s IH]; simpl; [reflexivity | now rewrite IH]. Qed.

Lemma length_append (s t : string) :
  String.length (s ++ t) = String.length s + String.length t.
Proof. induction s as [|c s IH]; simpl; [reflexivity | now rewrite IH]. Qed.

Lemma has_char_append (c : ascii) (s t : string) :
  Py.has_char c (s ++ t) = Py.has_char c s || Py.has_char c t.
Proof.
  induction s as [|x s IH]; simpl; [reflexivity|].
  rewrite IH. now rewrite orb_assoc.
Qed.

Lemma split_not_nil (sep : ascii) (s : string) : Py.split sep s <> [].
Proof.
  destruct s as [|c s]; simpl; [discriminate|].
  destruct (Ascii.eqb c sep); [discriminate|].
  destruct (Py.split sep s); discriminate.
Qed.

Lemma split_no_sep (sep : ascii) (s : string) :
  Py.has_char sep s = false -> Py.split sep s = [s].
Proof.
  induction s as [|c s IH]; simpl; [reflexivity|].
  intros H. apply orb_false_iff in H. destruct H as [Hc Hs].
  rewrite Hc, (IH Hs). reflexivity.
Qed.

(** ** The last segment of a split *)

Lemma last_cons_not_nil (A : Type) (x d : A) (l : list A) :
  l <> [] -> last (x :: l) d = last l d.
Proof. destruct l; [congruence | reflexivity]. Qed.

Lemma final_split_step (sep c : ascii) (s : string) :
  Ascii.eqb c sep = false ->
  Py.final (Py.split sep (String c s)) =
  match Py.split sep s with
  | [_] => String c (Py.final (Py.split sep s))
  | _ => Py.final (Py.split sep s)
  end.
Proof.
  intros Hc. unfold Py.final. simpl. rewrite Hc.
  destruct (Py.split sep s) as [|h t] eqn:E.
  - now apply split_not_nil in E.
  - destruct t; reflexivity.
Qed.

Lemma split_singleton (sep : ascii) (s h : string) :
  Py.split sep s = [h] -> h = s /\ Py.has_char sep s = false.
Proof.
  revert h. induction s as [|c s IH]; simpl; intros h E.
  - inversion E. auto.
  - destruct (Ascii.eqb c sep) eqn:Hc.
    + inversion E as [[Eh Et]]. now apply split_not_nil in Et.
    + destruct (Py.split sep s) as [|h' t] eqn:Es; [now apply split_not_nil in Es|].
      inversion E; subst. destruct (IH h' eq_refl) as [-> Hs].
      simpl. auto.
Qed.

Lemma final_split_no_sep (sep : ascii) (s : string) :
  Py.has_char sep (Py.final (Py.split sep s)) = false.
Proof.
  induction s as [|c s IH]; [reflexivity|].
  destruct (Ascii.eqb c sep) eqn:Hc.
  - unfold Py.final in *. simpl. rewrite Hc.
    rewrite last_cons_not_nil by apply split_not_nil. exact IH.
  - rewrite final_split_step by exact Hc.
    destruct (Py.split sep s) as [|h [|h' t]] eqn:E; try exact IH.
    simpl. rewrite Hc. exact IH.
Qed.

Lemma final_split_decompose (sep : ascii) (s : string) :
  s = Py.final (Py.split sep s) \/
  exists stem, s = stem ++ String sep (Py.final (Py.split sep s)).
Proof.
  induction s as [|c s IH]; [left; reflexivity|].
  destruct (Ascii.eqb c sep) eqn:Hc.
  - right. unfold Py.final in *. simpl. rewrite Hc.
    rewrite last_cons_not_nil by apply split_not_nil.
    apply Ascii.eqb_eq in Hc. subst c.
    destruct IH as [IH | [stem IH]].
    + exists "". simpl. now rewrite <- IH.
    + exists (String sep stem). simpl. now rewrite <- IH.
  - rewrite final_split_step by exact Hc.
    destruct (Py.split sep s) as [|h [|h' t]] eqn:E.
    + now apply split_not_nil in E.
    + left. apply split_singleton in E. destruct E as [-> _]. reflexivity.
    + right. destruct IH as [IH | [stem IH]].
      * pose proof (final_split_no_sep sep s) as Hn.
        rewrite E, <- IH in Hn.
        rewrite (split_no_sep _ _ Hn) in E. discriminate.
      * exists (String c stem). simpl. now rewrite <- IH.
Qed.

Lemma final_split_unique (sep : ascii) (stem ext : string) :
  Py.has_char sep ext = false ->
  Py.final (Py.split sep (stem ++ String sep ext)) = ext.
Proof.
  intros Hext. induction stem as [|c stem IH].
  - unfold Py.final. simpl. rewrite Ascii.eqb_refl.
    rewrite last_cons_not_nil by apply split_not_nil.
    now rewrite (split_no_sep _ _ Hext).
  - change (String c stem ++ String sep ext)
      with (String c (stem ++ String sep ext)).
    destruct (Ascii.eqb c sep) eqn:Hc.
    + unfold Py.final in *. simpl. rewrite Hc.
      rewrite last_cons_not_nil by apply split_not_nil. exact IH.
    + rewrite final_split_step by exact Hc.
      destruct (Py.split sep (stem ++ String sep ext)) as [|h [|h' t]] eqn:E;
        try exact IH.
      apply split_singleton in E. destruct E as [_ E].
      rewrite has_char_append in E. simpl in E.
      rewrite Ascii.eqb_refl in E. now rewrite orb_true_r in E.
Qed.

(** [x.split(".")[-1]] is the part of [x] after its last dot. *)
Lemma final_split_dot (x ext : string) :
  Py.final (Py.split "." x) = ext <-> after_last_dot ext x.
Proof.
  split.
  - intros <-. pose proof (final_split_no_sep "." x) as Hn.
    destruct (final_split_decompose "." x) as [E | [stem E]].
    + rewrite E at 2. now constructor.
    + rewrite E at 2. now apply dotted.
  - intros [Hn | stem Hn].
    + unfold Py.final. now rewrite (split_no_sep _ _ Hn).
    + now apply final_split_unique.
Qed.

Lemma mem_In (x : string) (ls : list string) : Py.mem x ls = true <-> In x ls.
Proof.
  unfold Py.mem. rewrite existsb_exists. split.
  - intros [y [Hy E]]. apply String.eqb_eq in E. now subst.
  - intros H. exists x. split; [exact H | apply String.eqb_refl].
Qed.

(** C10. The image listing keeps exactly the entries of the directory
    whose part after the last dot, the whole name when there is no dot,
    is one of the extensions, compared case-sensitively and in listing
    order; cover.PNG is dropped and a file named png is kept. *)
Theorem get_all_filenames_by_last_segment :
  (forall listing extensions x,
      In x (get_all_filenames (Some listing) extensions) <->
      In x listing /\ exists ext, In ext extensions /\ after_last_dot ext x)
  /\ (forall listing extensions,
        get_all_filenames (Some listing) extensions =
        filter (fun x => Py.mem (Py.final (Py.split "." x)) extensions) listing)
  /\ (forall extensions, get_all_filenames None extensions = [])
  /\ get_all_filenames (Some ["cover.PNG"; "png"; "a.png"])
       ["gif"; "jpg"; "jpeg"; "png"] = ["png"; "a.png"].
Proof.
  split; [|split; [|split]]; try reflexivity.
  intros listing extensions x. unfold get_all_filenames.
  rewrite filter_In, mem_In. split.
  - intros [Hx He]. split; [exact Hx|].
    exists (Py.final (Py.split "." x)). split; [exact He|].
    now apply final_split_dot.
  - intros [Hx [ext [He Ha]]]. split; [exact Hx|].
    apply final_split_dot in Ha. now rewrite Ha.
Qed.

(** ** Line doubling *)

Lemma join_cons (sep x : string) (ls : list string) :
  ls <> [] -> Py.join sep (x :: ls) = x ++ sep ++ Py.join sep ls.
Proof. destruct ls; [congruence | reflexivity]. Qed.

Lemma join_split_double (s : string) :
  Py.join (LF ++ LF) (Py.split Py.nl s) = double_newlines s.
Proof.
  induction s as [|c s IH]; [reflexivity|].
  simpl Py.split. simpl double_newlines.
  destruct (Ascii.eqb c Py.nl).
  - rewrite join_cons by apply split_not_nil. now rewrite IH.
  - destruct (Py.split Py.nl s) as [|h t] eqn:E;
      [now apply split_not_nil in E|].
    rewrite <- IH. destruct t; reflexivity.
Qed.

(** What [strip] takes away is white space, and what it leaves neither
    starts nor ends with white space. *)
Lemma lstrip_spec (s : string) :
  exists u,
    s = u ++ Py.lstrip s /\ all_space u = true
    /\ match Py.lstrip s with
       | String c _ => Py.isspace c = false
       | "" => True
       end.
Proof.
  induction s as [|c s [u [E [Hu Hh]]]]; [now exists ""|]. simpl.
  destruct (Py.isspace c) eqn:Ec.
  - exists (String c u). simpl. rewrite <- E, Ec, Hu. auto.
  - exists "". auto.
Qed.

Lemma rstrip_spec (s : string) :
  (exists v, s = Py.rstrip s ++ v /\ all_space v = true)
  /\ Py.rstrip (Py.rstrip s) = Py.rstrip s.
Proof.
  induction s as [|c s [[v [E Hv]] Hi]]; [split; [now exists ""|reflexivity]|].
  simpl. destruct (Py.rstrip s) as [|d r] eqn:Er.
  - destruct (Py.isspace c) eqn:Ec.
    + split; [|reflexivity]. exists (String c s). simpl in E.
      split; [reflexivity|]. simpl. now rewrite Ec, E.
    + split; [|simpl; now rewrite Ec]. exists s. simpl in E.
      split; [reflexivity|]. now rewrite E.
  - split.
    + exists v. split; [|exact Hv]. simpl in *. now rewrite <- E.
    + change (Py.rstrip (String c (String d r)))
        with (match Py.rstrip (String d r) with
              | "" => if Py.isspace c then "" else String c ""
              | r' => String c r'
              end).
      now rewrite Hi.
Qed.

Lemma strip_spec (s : string) :
  (exists u v, s = u ++ Py.strip s ++ v
               /\ all_space u = true /\ all_space v = true)
  /\ Py.lstrip (Py.strip s) = Py.strip s
  /\ Py.rstrip (Py.strip s) = Py.strip s.
Proof.
  destruct (lstrip_spec s) as [u [Eu [Hu Hh]]].
  destruct (rstrip_spec (Py.lstrip s)) as [[v [Ev Hv]] Hi].
  unfold Py.strip. split; [|split; [|exact Hi]].
  - exists u, v. now rewrite <- Ev.
  - destruct (Py.lstrip s) as [|c t]; [reflexivity|].
    simpl. rewrite Hh. destruct (Py.rstrip t); simpl; now rewrite Hh.
Qed.

Section Chapters.

Variable markdown_markdown : string -> string.

(** C5, as the code has it.  The text is first stripped of the white
    space at both ends; of what is left every line feed is doubled, which
    is the split on line feeds joined by blank lines; the image pass and
    then the HTML conversion work on that text. *)
Theorem preprocessing_strips_then_doubles :
  forall exists_ md_filename css_filenames markdown_data,
    corrected_markdown markdown_data = line_doubling (Py.strip markdown_data)
    /\ corrected_markdown markdown_data = double_newlines (Py.strip markdown_data)
    /\ get_chapter_XML markdown_markdown exists_ md_filename css_filenames
         markdown_data =
       (chapter_shell md_filename css_filenames
          (markdown_markdown
             (fst (process_markdown_for_images exists_
                     (double_newlines (Py.strip markdown_data))))),
        snd (process_markdown_for_images exists_
               (double_newlines (Py.strip markdown_data)))).
Proof.
  intros exists_ md_filename css_filenames markdown_data.
  assert (E : corrected_markdown markdown_data =
              double_newlines (Py.strip markdown_data))
    by apply join_split_double.
  split; [reflexivity | split; [exact E|]].
  unfold get_chapter_XML. rewrite E.
  now destruct (process_markdown_for_images exists_ _).
Qed.

End Chapters.

(** C5, as stated, fails on a text that ends in a line feed: the code
    gives the single line back, the doubling of the text as given keeps
    the line feed and doubles it. *)
Lemma preprocessing_is_not_plain_doubling :
  corrected_markdown ("a" ++ LF) = "a"
  /\ line_doubling ("a" ++ LF) = "a" ++ LF ++ LF
  /\ corrected_markdown ("a" ++ LF) <> line_doubling ("a" ++ LF).
Proof. split; [reflexivity | split; [reflexivity | discriminate]]. Qed.

(** ** The shape of the package document *)

Import Minidom.

(** A loop that appends one child per element of a list. *)
Lemma fold_appendChild (A : Type) (step : node -> A -> node) (g : A -> node)
    (l : list A) :
  (forall m x, step m x = appendChild m (g x)) ->
  forall t a c,
    fold_left step l (Element t a c) = Element t a (c ++ map g l).
Proof.
  intros Hstep. induction l as [|x l IH]; intros t a c; simpl.
  - now rewrite app_nil_r.
  - rewrite Hstep. simpl. rewrite IH, <- app_assoc. reflexivity.
Qed.

Lemma nth_error_enumerate_from (A : Type) (l : list A) (k i : nat) (x : A) :
  nth_error l i = Some x ->
  nth_error (Py.enumerate_from k l) i = Some (k + i, x).
Proof.
  revert k i. induction l as [|y l IH]; intros k [|i]; simpl;
    try discriminate.
  - intros [= ->]. now rewrite Nat.add_0_r.
  - intros H. rewrite (IH (S k) i H). f_equal. f_equal. lia.
Qed.

Lemma nth_error_enumerate (A : Type) (l : list A) (i : nat) (x : A) :
  nth_error l i = Some x -> nth_error (Py.enumerate l) i = Some (i, x).
Proof. apply (nth_error_enumerate_from A l 0 i x). Qed.

Lemma length_enumerate_from (A : Type) (l : list A) (k : nat) :
  List.length (Py.enumerate_from k l) = List.length l.
Proof. revert k. induction l; intros k; simpl; [reflexivity | now rewrite IHl]. Qed.

Lemma length_zero_eqb (v : string) :
  Nat.eqb (String.length v) 0 = String.eqb v "".
Proof. now destruct v. Qed.

Lemma metadata_entry_appends (t : string) (a : list (string * string))
    (c : list node) (kv : string * string) :
  metadata_entry (Element t a c) kv =
  Element t a (c ++ metadata_element kv).
Proof.
  destruct kv as [k v]. unfold metadata_entry, metadata_element.
  rewrite length_zero_eqb.
  destruct (String.eqb v "") eqn:Ev; simpl negb; cbv iota.
  - now rewrite app_nil_r.
  - simpl fold_left.
    destruct (String.eqb k "dc:title") eqn:E1.
    + apply String.eqb_eq in E1. subst k. reflexivity.
    + destruct (String.eqb k "dc:creator") eqn:E2.
      * apply String.eqb_eq in E2. subst k. reflexivity.
      * destruct (String.eqb k "dc:identifier"); reflexivity.
Qed.

Lemma fold_metadata_entry (items : list (string * string)) :
  forall t a c,
    fold_left metadata_entry items (Element t a c) =
    Element t a (c ++ flat_map metadata_element items).
Proof.
  induction items as [|kv items IH]; intros t a c; simpl fold_left.
  - simpl. now rewrite app_nil_r.
  - rewrite metadata_entry_appends, IH. simpl flat_map.
    now rewrite <- app_assoc.
Qed.

Lemma opf_metadata_children (items : list (string * string)) :
  opf_metadata items =
  Element "metadata" [("xmlns:dc", "http://purl.org/dc/elements/1.1/")]
    (flat_map metadata_element items).
Proof. unfold opf_metadata. simpl setAttribute. apply fold_metadata_entry. Qed.

Lemma image_entry_appends (cover : option string) (tm t : string)
    (am a : list (string * string)) (cm c : list node) (x : nat * string) :
  image_entry cover (Element tm am cm, Element t a c) x =
  (Element tm am (cm ++ cover_metas cover [x]),
   Element t a (c ++ [image_item cover x])).
Proof.
  destruct x as [i f].
  unfold image_entry, image_item, image_media_type, cover_metas.
  simpl flat_map.
  destruct (Py.contains "gif" f);
    [|destruct (Py.contains "jpg" f || Py.contains "jpeg" f);
      [|destruct (Py.contains "png" f)]];
    destruct (is_cover f cover); simpl; rewrite ?app_nil_r; reflexivity.
Qed.

Lemma fold_image_entry (cover : option string) (l : list (nat * string)) :
  forall tm am cm t a c,
    fold_left (image_entry cover) l (Element tm am cm, Element t a c) =
    (Element tm am (cm ++ cover_metas cover l),
     Element t a (c ++ map (image_item cover) l)).
Proof.
  induction l as [|x l IH]; intros tm am cm t a c; cbn [fold_left].
  - simpl. now rewrite !app_nil_r.
  - rewrite image_entry_appends, IH.
    unfold cover_metas. simpl flat_map. simpl map.
    rewrite app_nil_r, <- !app_assoc. reflexivity.
Qed.

(** The package element, child by child. *)
Lemma packageOPF_shape (md_filenames image_filenames css_filenames : list string)
    (d : description) :
  packageOPF_document md_filenames image_filenames css_filenames d =
  Element "package"
    [ ("xmlns", "http://www.idpf.org/2007/opf"); ("version", "3.0");
      ("xml:lang", "en"); ("unique-identifier", "pub-id") ]
    [ Element "metadata" [("xmlns:dc", "http://purl.org/dc/elements/1.1/")]
        (flat_map metadata_element (metadata d)
         ++ cover_metas (cover_image d) (Py.enumerate image_filenames));
      Element "manifest" []
        (manifest_head_items
         ++ map chapter_item (Py.enumerate md_filenames)
         ++ map (image_item (cover_image d)) (Py.enumerate image_filenames)
         ++ map css_item (Py.enumerate css_filenames));
      Element "spine" [("toc", "ncx")]
        (Element "itemref" [("idref", "titlepage"); ("linear", "yes")] []
         :: map spine_itemref (Py.enumerate md_filenames));
      opf_guide ].
Proof.
  unfold packageOPF_document.
  rewrite opf_metadata_children.
  assert (Em : opf_manifest_chapters opf_manifest_head md_filenames =
               Element "manifest" []
                 (manifest_head_items
                  ++ map chapter_item (Py.enumerate md_filenames))).
  { unfold opf_manifest_chapters.
    change opf_manifest_head with (Element "manifest" [] manifest_head_items).
    apply fold_appendChild. intros m [i f]. reflexivity. }
  rewrite Em. unfold opf_manifest_images. rewrite fold_image_entry.
  assert (Ec : forall c,
             opf_manifest_css (Element "manifest" [] c) css_filenames =
             Element "manifest" []
               (c ++ map css_item (Py.enumerate css_filenames))).
  { intros c. unfold opf_manifest_css.
    apply fold_appendChild. intros m [i f]. reflexivity. }
  rewrite Ec.
  assert (Es : opf_spine md_filenames =
               Element "spine" [("toc", "ncx")]
                 ([Element "itemref"
                     [("idref", "titlepage"); ("linear", "yes")] []]
                  ++ map spine_itemref (Py.enumerate md_filenames))).
  { unfold opf_spine. simpl appendChild.
    apply fold_appendChild. intros m [i f]. reflexivity. }
  rewrite Es. simpl. rewrite <- !app_assoc. reflexivity.
Qed.

Lemma opf_metadata_elements (mds imgs css : list string) (d : description) :
  opf_children "metadata" (packageOPF_document mds imgs css d) =
  (flat_map metadata_element (metadata d)
   ++ cover_metas (cover_image d) (Py.enumerate imgs))%list.
Proof.
  rewrite packageOPF_shape. unfold opf_children, children_named.
  simpl. now rewrite app_nil_r.
Qed.

Lemma opf_manifest_items (mds imgs css : list string) (d : description) :
  opf_children "manifest" (packageOPF_document mds imgs css d) =
  (manifest_head_items
   ++ map chapter_item (Py.enumerate mds)
   ++ map (image_item (cover_image d)) (Py.enumerate imgs)
   ++ map css_item (Py.enumerate css))%list.
Proof.
  rewrite packageOPF_shape. unfold opf_children, children_named.
  simpl. now rewrite app_nil_r.
Qed.

Lemma opf_spine_itemrefs (mds imgs css : list string) (d : description) :
  opf_children "spine" (packageOPF_document mds imgs css d) =
  Element "itemref" [("idref", "titlepage"); ("linear", "yes")] []
  :: map spine_itemref (Py.enumerate mds).
Proof.
  rewrite packageOPF_shape. unfold opf_children, children_named.
  simpl. now rewrite app_nil_r.
Qed.

Lemma metadata_element_id (kv : string * string) (x : node) :
  In x (metadata_element kv) ->
  (tagName x = "dc:identifier" -> getAttribute x "id" = Some "book-id")
  /\ getAttribute x "id" <> Some "pub-id"
  /\ getAttribute x "name" = None.
Proof.
  destruct kv as [k v]. unfold metadata_element.
  destruct (String.eqb v ""); [intros []|].
  intros [<- | []]. unfold getAttribute. simpl attributes. simpl tagName.
  destruct (String.eqb k "dc:title") eqn:E1;
    [apply String.eqb_eq in E1; subst k; repeat split; discriminate|].
  destruct (String.eqb k "dc:creator") eqn:E2;
    [apply String.eqb_eq in E2; subst k; repeat split; discriminate|].
  destruct (String.eqb k "dc:identifier") eqn:E3.
  - repeat split; discriminate.
  - repeat split; try discriminate.
    intros ->. discriminate.
Qed.

Lemma cover_metas_In (cover : option string) (l : list (nat * string))
    (x : node) :
  In x (cover_metas cover l) ->
  exists i f, In (i, f) l /\ is_cover f cover = true
    /\ x = Element "meta"
             [("name", "cover"); ("content", "image-" ++ Py.fmt_05d i)] [].
Proof.
  unfold cover_metas. rewrite in_flat_map. intros [[i f] [Hin Hx]].
  destruct (is_cover f cover) eqn:E; [|destruct Hx].
  destruct Hx as [<- | []]. now exists i, f.
Qed.

(** C8, on the code.  The package element names [pub-id] as its unique
    identifier, the dc:identifier element is tagged [book-id], and no
    metadata element carries the id [pub-id]: the attribute refers to
    nothing. *)
Theorem unique_identifier_names_no_element :
  forall mds imgs css d,
    let package := packageOPF_document mds imgs css d in
    getAttribute package "unique-identifier" = Some "pub-id"
    /\ (forall x, In x (opf_children "metadata" package) ->
                  tagName x = "dc:identifier" ->
                  getAttribute x "id" = Some "book-id")
    /\ (forall x, In x (opf_children "metadata" package) ->
                  getAttribute x "id" <> Some "pub-id")
    /\ opf_children "metadata"
         (packageOPF_document mds imgs css
            {| metadata := [("dc:identifier", "id-1")]; default_css := [];
               chapters := []; cover_image := None |}) =
       [Element "dc:identifier" [("id", "book-id")] [Text "id-1"]].
Proof.
  intros mds imgs css d package. subst package.
  split; [rewrite packageOPF_shape; reflexivity|].
  rewrite !opf_metadata_elements.
  split; [|split].
  - intros x Hx. apply in_app_or in Hx. destruct Hx as [Hx | Hx].
    + apply in_flat_map in Hx. destruct Hx as [kv [_ Hx]].
      now apply metadata_element_id in Hx.
    + apply cover_metas_In in Hx. destruct Hx as [i [f [_ [_ ->]]]].
      discriminate.
  - intros x Hx. apply in_app_or in Hx. destruct Hx as [Hx | Hx].
    + apply in_flat_map in Hx. destruct Hx as [kv [_ Hx]].
      now apply metadata_element_id in Hx.
    + apply cover_metas_In in Hx. destruct Hx as [i [f [_ [_ ->]]]].
      discriminate.
  - simpl. unfold cover_metas.
    induction (Py.enumerate imgs) as [|[i f] l IH]; [reflexivity | exact IH].
Qed.

Lemma image_item_attributes (cover : option string) (i : nat) (f : string) :
  getAttribute (image_item cover (i, f)) "href" = Some ("images/" ++ f)
  /\ getAttribute (image_item cover (i, f)) "media-type" = image_media_type f
  /\ (getAttribute (image_item cover (i, f)) "properties" = Some "cover-image"
      <-> is_cover f cover = true).
Proof.
  unfold image_item, getAttribute. simpl attributes.
  destruct (image_media_type f) as [t|];
    destruct (is_cover f cover); simpl;
    repeat split; try reflexivity; try discriminate; intros; reflexivity.
Qed.

(** C3, on the code.  The media type of an image item is chosen by
    looking for gif, jpg, jpeg and png anywhere in the file name, in that
    order, not by the extension: gift.png, a PNG file by its extension,
    is declared image/gif, and its manifest item says so. *)
Theorem media_type_is_by_substring :
  (forall mds imgs css d i f,
      nth_error imgs i = Some f ->
      exists item,
        nth_error (opf_children "manifest" (packageOPF_document mds imgs css d))
          (3 + List.length mds + i) = Some item
        /\ getAttribute item "href" = Some ("images/" ++ f)
        /\ getAttribute item "media-type" = image_media_type f)
  /\ after_last_dot "png" "gift.png"
  /\ image_media_type "gift.png" = Some "image/gif"
  /\ (forall d,
        map (fun item => getAttribute item "media-type")
          (opf_children "manifest" (packageOPF_document [] ["gift.png"] [] d)) =
        [ Some "application/xhtml+xml"; Some "application/x-dtbncx+xml";
          Some "application/xhtml+xml"; Some "image/gif" ]).
Proof.
  split; [|split; [|split]].
  - intros mds imgs css d i f Hf.
    exists (image_item (cover_image d) (i, f)).
    split; [|now destruct (image_item_attributes (cover_image d) i f) as [? [? _]]].
    rewrite opf_manifest_items.
    rewrite app_assoc, nth_error_app2;
      rewrite length_app, length_map; unfold Py.enumerate;
      rewrite length_enumerate_from; simpl List.length; [|lia].
    replace (3 + List.length mds + i - (3 + List.length mds)) with i by lia.
    rewrite nth_error_app1
      by (rewrite length_map, length_enumerate_from;
          apply nth_error_Some; congruence).
    rewrite nth_error_map, (nth_error_enumerate_from _ _ 0 i f Hf).
    reflexivity.
  - apply (dotted "png" "gift"). reflexivity.
  - reflexivity.
  - intros d. rewrite opf_manifest_items. simpl.
    unfold getAttribute. simpl.
    now destruct (is_cover "gift.png" (cover_image d)).
Qed.

(** C4. When the cover image of the description is not one of the
    available images (or none is set), no manifest item carries the
    cover-image property and the metadata holds no meta element named
    cover. *)
Theorem no_cover_without_image :
  forall mds imgs css d,
    (forall c, cover_image d = Some c -> ~ In c imgs) ->
    let package := packageOPF_document mds imgs css d in
    (forall item, In item (opf_children "manifest" package) ->
                  getAttribute item "properties" <> Some "cover-image")
    /\ (forall x, In x (opf_children "metadata" package) ->
                  ~ (tagName x = "meta" /\ getAttribute x "name" = Some "cover")).
Proof.
  intros mds imgs css d Hcover package. subst package.
  assert (Hno : forall i f, In (i, f) (Py.enumerate imgs) ->
                            is_cover f (cover_image d) = false).
  { intros i f Hin. unfold is_cover.
    destruct (cover_image d) as [c|] eqn:Ec; [|reflexivity].
    apply String.eqb_neq. intros ->. apply (Hcover c eq_refl).
    unfold Py.enumerate in Hin. revert Hin. generalize 0.
    induction imgs as [|g imgs IH]; intros k Hin; [destruct Hin|].
    destruct Hin as [E | Hin]; [inversion E; now left|].
    right. apply (IH (fun c' E' H' => Hcover c' E' (or_intror H')) (S k) Hin). }
  split.
  - intros item Hin. rewrite opf_manifest_items in Hin.
    repeat (apply in_app_or in Hin; destruct Hin as [Hin | Hin]).
    + simpl in Hin.
      destruct Hin as [<- | [<- | [<- | []]]]; discriminate.
    + apply in_map_iff in Hin. destruct Hin as [[i f] [<- _]]. discriminate.
    + apply in_map_iff in Hin. destruct Hin as [[i f] [<- Hin]].
      intros H. apply image_item_attributes in H.
      rewrite (Hno i f Hin) in H. discriminate.
    + apply in_map_iff in Hin. destruct Hin as [[i f] [<- _]]. discriminate.
  - intros x Hin. rewrite opf_metadata_elements in Hin.
    apply in_app_or in Hin. destruct Hin as [Hin | Hin].
    + apply in_flat_map in Hin. destruct Hin as [kv [_ Hin]].
      apply metadata_element_id in Hin. destruct Hin as [_ [_ Hn]].
      intros [_ H]. congruence.
    + apply cover_metas_In in Hin.
      destruct Hin as [i [f [Hin [Hc _]]]].
      rewrite (Hno i f Hin) in Hc. discriminate.
Qed.

Lemma no_cover_without_image_witness :
  let d := {| metadata := [("dc:title", "T")]; default_css := [];
              chapters := []; cover_image := Some "missing.png" |} in
  let package := packageOPF_document ["a.md"] ["a.png"] [] d in
  (forall item, In item (opf_children "manifest" package) ->
                getAttribute item "properties" <> Some "cover-image")
  /\ (forall x, In x (opf_children "metadata" package) ->
                ~ (tagName x = "meta" /\ getAttribute x "name" = Some "cover")).
Proof.
  apply (no_cover_without_image ["a.md"] ["a.png"] []
           {| metadata := [("dc:title", "T")]; default_css := [];
              chapters := []; cover_image := Some "missing.png" |}).
  intros c [= <-] [E | []]. discriminate.
Defined.

(** ** The two tables of contents *)

(** A loop that appends one piece of text per element of a list. *)
Lemma fold_append (A : Type) (step : string -> A -> string) (g : A -> string)
    (l : list A) :
  (forall s x, step s x = s ++ g x) ->
  forall s, fold_left step l s = s ++ Py.join "" (map g l).
Proof.
  intros Hstep. induction l as [|x l IH]; intros s; simpl fold_left.
  - simpl. now rewrite append_nil_r.
  - rewrite IH, Hstep, append_assoc. f_equal.
    simpl map. unfold Py.join. simpl.
    destruct (map g l); [now rewrite append_nil_r | reflexivity].
Qed.

Lemma basename_no_dot (f : string) : Py.has_char "." (basename f) = false.
Proof.
  unfold basename, Py.first.
  induction f as [|c f IH]; [reflexivity|]. simpl.
  destruct (Ascii.eqb c ".") eqn:Ec; [reflexivity|].
  destruct (Py.split "." f) as [|h t]; simpl in *; now rewrite Ec.
Qed.

Lemma basename_prefix (f : string) :
  f = basename f \/ exists rest, f = basename f ++ "." ++ rest.
Proof.
  unfold basename, Py.first.
  induction f as [|c f IH]; [now left|]. simpl.
  destruct (Ascii.eqb c ".") eqn:Ec.
  - apply Ascii.eqb_eq in Ec. subst c. right. now exists f.
  - destruct (Py.split "." f) as [|h t] eqn:E;
      [now apply split_not_nil in E|].
    simpl in *. destruct IH as [IH | [rest IH]].
    + left. now rewrite <- IH.
    + right. exists rest. now rewrite IH at 1.
Qed.

(** Pieces of text that differ only in how the concatenation is
    bracketed. *)
Ltac same_text :=
  unfold toc_entry, ncx_entry, toc_link, chapter_href, chapter_id, basename,
    att, text_lines, Py.join;
  cbn [String.concat append];
  repeat (progress (repeat rewrite append_assoc; cbn [append]));
  reflexivity.

Lemma get_TOC_XML_entries (css mds : list string) :
  get_TOC_XML css mds =
  toc_xhtml_head ++ Py.join "" (map toc_link css) ++ toc_xhtml_nav
  ++ Py.join "" (map toc_entry (Py.enumerate mds)) ++ toc_xhtml_tail.
Proof.
  unfold get_TOC_XML.
  rewrite (fold_append _ _ toc_entry) by (intros s [i f]; same_text).
  rewrite (fold_append _ _ toc_link) by (intros s f; same_text).
  now rewrite !append_assoc.
Qed.

Lemma get_TOCNCX_XML_entries (mds : list string) :
  get_TOCNCX_XML mds =
  toc_ncx_head ++ Py.join "" (map ncx_entry (Py.enumerate mds)) ++ toc_ncx_tail.
Proof.
  unfold get_TOCNCX_XML.
  rewrite (fold_append _ _ ncx_entry) by (intros s [i f]; same_text).
  now rewrite !append_assoc.
Qed.

(** ** The layout of the archive *)

(** A loop that writes the members [g x] for every element [x]. *)
Lemma fold_writes (A : Type) (step : list member -> A -> list member)
    (g : A -> list member) (l : list A) :
  (forall e x, step e x = (e ++ g x)%list) ->
  forall e, fold_left step l e = (e ++ flat_map g l)%list.
Proof.
  intros Hstep. induction l as [|x l IH]; intros e; simpl.
  - now rewrite app_nil_r.
  - rewrite IH, Hstep, <- app_assoc. reflexivity.
Qed.

Section Archive.

Variable toprettyxml : Minidom.node -> string.

Lemma write_epub_layout (p : project) (json_data : description)
    (chapter_data : list (string * string)) :
  let all_md_filenames := map markdown (chapters json_data) in
  let all_css_filenames := Py.fromkeys (default_css json_data) in
  let all_available_images :=
    get_all_filenames (option_map (map fst) (images p))
      ["gif"; "jpg"; "jpeg"; "png"] in
  write_epub toprettyxml p json_data chapter_data =
  ([ {| arcname := "mimetype"; data := "application/epub+zip";
        compress_type := ZIP_STORED |};
     deflated "META-INF/container.xml" get_container_XML;
     deflated "OPS/package.opf"
       (get_packageOPF_XML toprettyxml all_md_filenames all_available_images
          all_css_filenames json_data);
     deflated "OPS/titlepage.xhtml"
       (get_coverpage_XML
          (get_default "dc:title" "Untitled Document" (metadata json_data))
          (get_default "dc:creator" "Unknown Author" (metadata json_data))) ]
   ++ map (fun '(i, md_filename) =>
             deflated ("OPS/" ++ chapter_href i md_filename)
               (get_default md_filename "" chapter_data))
        (Py.enumerate all_md_filenames)
   ++ map (fun image_name =>
             deflated ("OPS/images/" ++ image_name)
               (get_default image_name ""
                  (match images p with Some l => l | None => [] end)))
        all_available_images
   ++ [ deflated "OPS/TOC.xhtml" (get_TOC_XML all_css_filenames all_md_filenames);
        deflated "OPS/toc.ncx" (get_TOCNCX_XML all_md_filenames) ]
   ++ css_members p all_css_filenames)%list.
Proof.
  intros all_md_filenames all_css_filenames all_available_images.
  unfold write_epub, css_members.
  fold all_md_filenames all_css_filenames all_available_images.
  rewrite (fold_writes _ _
             (fun x => [deflated ("OPS/" ++ chapter_href (fst x) (snd x))
                          (get_default (snd x) "" chapter_data)]))
    by (intros e [i f]; unfold writestr, deflated; do 3 f_equal; same_text).
  rewrite (fold_writes _ _
             (fun image_name =>
                [deflated ("OPS/images/" ++ image_name)
                   (get_default image_name ""
                      (match images p with Some l => l | None => [] end))]))
    by reflexivity.
  assert (Emap : forall (A : Type) (g : A -> member) (l : list A),
             flat_map (fun x => [g x]) l = map g l).
  { intros A g l. induction l; simpl; [reflexivity | now f_equal]. }
  rewrite (Emap _ (fun x => deflated ("OPS/" ++ chapter_href (fst x) (snd x))
                              (get_default (snd x) "" chapter_data))).
  rewrite Emap.
  assert (Epair :
            map (fun x : nat * string =>
                   deflated ("OPS/" ++ chapter_href (fst x) (snd x))
                     (get_default (snd x) "" chapter_data))
              (Py.enumerate all_md_filenames) =
            map (fun '(i, md_filename) =>
                   deflated ("OPS/" ++ chapter_href i md_filename)
                     (get_default md_filename "" chapter_data))
              (Py.enumerate all_md_filenames)).
  { apply map_ext. now intros [i f]. }
  rewrite Epair. unfold writestr.
  destruct (css_files p) as [css_dir|].
  - rewrite (fold_writes _ _
               (fun css =>
                  match read_file css css_dir with
                  | Some bytes => [deflated ("OPS/css/" ++ css) bytes]
                  | None => []
                  end)).
    + simpl. rewrite <- !app_assoc. reflexivity.
    + intros e css. destruct (read_file css css_dir); [reflexivity|].
      now rewrite app_nil_r.
  - simpl. rewrite <- ?app_assoc. simpl. rewrite ?app_nil_r. reflexivity.
Qed.

End Archive.

(** ** The build *)

Lemma css_members_names (p : project) (all_css : list string) :
  map (fun m => (arcname m, compress_type m)) (css_members p all_css) =
  map (fun css => ("OPS/css/" ++ css, ZIP_DEFLATED))
    (filter
       (fun css =>
          match css_files p with
          | Some css_dir => Py.mem css (map fst css_dir)
          | None => false
          end)
       all_css).
Proof.
  unfold css_members. destruct (css_files p) as [css_dir|].
  - induction all_css as [|css l IH]; [reflexivity|].
    cbn [flat_map filter].
    assert (E : Py.mem css (map fst css_dir) =
                match read_file css css_dir with Some _ => true | None => false end).
    { unfold read_file, Py.mem. clear.
      induction css_dir as [|[k v] d IH]; [reflexivity|]. simpl.
      rewrite String.eqb_sym. destruct (String.eqb k css); [reflexivity | exact IH]. }
    rewrite E. destruct (read_file css css_dir);
      rewrite map_app, IH; reflexivity.
  - induction all_css as [|css l IH]; [reflexivity | exact IH].
Qed.

(** The review loop is left early only by an abort or an exception. *)
Lemma review_chapters_stop (reviewer : string -> review_answer) (p : project)
    (chs : list chapter) :
  forall chapter_contents stop,
    review_chapters reviewer p chs chapter_contents = inl stop ->
    stop <> Completed.
Proof.
  induction chs as [|ch chs IH]; intros chapter_contents stop; simpl.
  - discriminate.
  - destruct (review_markdown reviewer p (markdown ch)) as [[go content]|].
    + destruct go; simpl; [apply IH|]. intros [= <-]. discriminate.
    + intros [= <-]. discriminate.
Qed.

Section Build.

Variable toprettyxml : Minidom.node -> string.
Variable markdown_markdown : string -> string.
Variable input : string -> string.
Variable reviewer : string -> review_answer.


(** C1. Chapter [i] of a list of chapter files is named alike in all
    five places: its manifest item has the id [s] followed by the index
    in five digits, zero-padded, and the href made of that id, a dash,
    the base name and [.xhtml]; its spine itemref has that id; its
    anchor in TOC.xhtml and its content element in toc.ncx have that
    href; and its archive member is that href under OPS/. *)
Theorem chapter_numbering_is_shared :
  forall mds imgs css toc_css d p json_data chapter_data i f,
    nth_error mds i = Some f ->
    map markdown (chapters json_data) = mds ->
    let package := packageOPF_document mds imgs css d in
    (exists item,
        nth_error (opf_children "manifest" package) (3 + i) = Some item
        /\ getAttribute item "id" = Some (chapter_id i)
        /\ getAttribute item "href" = Some (chapter_href i f))
    /\ (exists itemref,
           nth_error (opf_children "spine" package) (1 + i) = Some itemref
           /\ getAttribute itemref "idref" = Some (chapter_id i))
    /\ (get_TOC_XML toc_css mds =
        toc_xhtml_head ++ Py.join "" (map toc_link toc_css) ++ toc_xhtml_nav
        ++ Py.join "" (map toc_entry (Py.enumerate mds)) ++ toc_xhtml_tail
        /\ nth_error (map toc_entry (Py.enumerate mds)) i =
           Some ("<li><a " ++ att "href" (chapter_href i f) ++ ">"
                 ++ basename f ++ "</a></li>"))
    /\ (get_TOCNCX_XML mds =
        toc_ncx_head ++ Py.join "" (map ncx_entry (Py.enumerate mds))
        ++ toc_ncx_tail
        /\ nth_error (map ncx_entry (Py.enumerate mds)) i =
           Some (text_lines
                   [ "<navPoint " ++ att "id" ("navpoint-" ++ Py.decimal i) ++ ">";
                     "<navLabel>";
                     "<text>" ++ basename f ++ "</text>";
                     "</navLabel><content " ++ att "src" (chapter_href i f) ++ "/>";
                     "</navPoint>" ]))
    /\ (exists m,
           nth_error (write_epub toprettyxml p json_data chapter_data) (4 + i)
           = Some m
           /\ arcname m = "OPS/" ++ chapter_href i f).
Proof.
  intros mds imgs css toc_css d p json_data chapter_data i f Hf Hmds package.
  subst package.
  pose proof (nth_error_enumerate _ _ _ _ Hf) as Hi.
  assert (Hlt : i < List.length (Py.enumerate mds)).
  { apply nth_error_Some. congruence. }
  split; [|split; [|split; [|split]]].
  - exists (chapter_item (i, f)). split.
    + rewrite opf_manifest_items.
      change (3 + i) with (List.length manifest_head_items + i).
      rewrite nth_error_app2 by lia.
      replace (List.length manifest_head_items + i
               - List.length manifest_head_items) with i by lia.
      rewrite nth_error_app1 by now rewrite length_map.
      now rewrite nth_error_map, Hi.
    + split; reflexivity.
  - exists (spine_itemref (i, f)). split; [|reflexivity].
    rewrite opf_spine_itemrefs. simpl nth_error.
    now rewrite nth_error_map, Hi.
  - split; [apply get_TOC_XML_entries|].
    now rewrite nth_error_map, Hi.
  - split; [apply get_TOCNCX_XML_entries|].
    now rewrite nth_error_map, Hi.
  - rewrite write_epub_layout, Hmds.
    exists (deflated ("OPS/" ++ chapter_href i f) (get_default f "" chapter_data)).
    split; [|reflexivity].
    simpl nth_error.
    rewrite nth_error_app1 by now rewrite length_map.
    now rewrite nth_error_map, Hi.
Qed.

End Build.

(** ** Failing fast, and building twice *)


Section Rebuild.

Variable toprettyxml : Minidom.node -> string.
Variable markdown_markdown : string -> string.
Variable input : string -> string.
Variable reviewer : string -> review_answer.

(** C9. When the project directory does not exist, or holds no file
    whose name ends in .md, the conversion raises and the file system is
    as it was: no archive was opened and nothing was written. *)
Theorem convert_fails_before_any_write :
  forall now w,
    work_dir w = None \/ (exists p, work_dir w = Some p /\ glob_md p = []) ->
    exists exception,
      convert_to_epub toprettyxml markdown_markdown input reviewer now w =
      (w, Raised exception).
Proof.
  intros now w [Hnone | [p [Hp Hglob]]]; unfold convert_to_epub.
  - rewrite Hnone. now exists "FileNotFoundError".
  - rewrite Hp, Hglob. now exists "ValueError".
Qed.



End Rebuild.


(** ** A sample project *)


Lemma chapter_numbering_is_shared_witness :
  let d := {| metadata := []; default_css := []; chapters :=
                [ {| markdown := "a.md"; css := "" |};
                  {| markdown := "b.v2.md"; css := "" |} ];
              cover_image := None |} in
  let mds := ["a.md"; "b.v2.md"] in
  let package := packageOPF_document mds [] [] d in
  chapter_href 1 "b.v2.md" = "s00001-b.xhtml"
  /\ (exists item,
         nth_error (opf_children "manifest" package) 4 = Some item
         /\ getAttribute item "id" = Some "s00001"
         /\ getAttribute item "href" = Some "s00001-b.xhtml")
  /\ (exists itemref,
         nth_error (opf_children "spine" package) 2 = Some itemref
         /\ getAttribute itemref "idref" = Some "s00001")
  /\ (exists m,
         nth_error (write_epub Minidom.writexml_document sample_project d []) 5
         = Some m
         /\ arcname m = "OPS/s00001-b.xhtml").
Proof.
  intros d mds package.
  destruct (chapter_numbering_is_shared Minidom.writexml_document
              mds [] [] [] d sample_project d [] 1 "b.v2.md"
              eq_refl eq_refl)
    as [Hitem [Href [_ [_ Hmember]]]].
  split; [reflexivity|].
  split; [exact Hitem|]. split; [exact Href | exact Hmember].
Defined.

Lemma convert_fails_before_any_write_witness :
  (exists exception,
      convert_to_epub Minidom.writexml_document (fun s => s) (fun _ => "")
        (fun _ => ReviewNo) sample_clock {| work_dir := None; epub := None |} =
      ({| work_dir := None; epub := None |}, Raised exception))
  /\ (exists exception,
         let w :=
           {| work_dir :=
                Some {| files := [("notes.txt", "n")]; description_json := None;
                        images := Some []; css_files := None |};
              epub := None |} in
         convert_to_epub Minidom.writexml_document (fun s => s) (fun _ => "")
           (fun _ => ReviewNo) sample_clock w =
         (w, Raised exception)).
Proof.
  split.
  - apply (convert_fails_before_any_write Minidom.writexml_document
             (fun s => s) (fun _ => "") (fun _ => ReviewNo) sample_clock
             {| work_dir := None; epub := None |}).
    left. reflexivity.
  - apply (convert_fails_before_any_write Minidom.writexml_document
             (fun s => s) (fun _ => "") (fun _ => ReviewNo) sample_clock
             {| work_dir :=
                  Some {| files := [("notes.txt", "n")];
                          description_json := None;
                          images := Some []; css_files := None |};
                epub := None |}).
    right. eexists. split; reflexivity.
Defined.


(** ** The image pattern: what a match looks like *)

Lemma match_path_spec (s p rest : string) :
  Pattern.match_path s = Some (p, rest) ->
  s = p ++ ")" ++ rest
  /\ Py.has_char ")" p = false /\ Py.has_char Py.nl p = false.
Proof.
  revert p. induction s as [|c s IH]; intros p; simpl; [discriminate|].
  destruct (Ascii.eqb c ")") eqn:Ec.
  - intros [= <- <-]. apply Ascii.eqb_eq in Ec. subst c. auto.
  - destruct (Ascii.eqb c Py.nl) eqn:En; [discriminate|].
    destruct (Pattern.match_path s) as [[p' r']|]; [|discriminate].
    intros [= <- <-]. destruct (IH p' eq_refl) as [-> [Hc Hn]].
    simpl. rewrite Ec, En. auto.
Qed.

Lemma match_path_closes (x rest : string) :
  Py.has_char Py.nl x = false ->
  Pattern.match_path (x ++ ")" ++ rest) <> None.
Proof.
  induction x as [|c x IH]; simpl; [discriminate|].
  intros H. apply orb_false_iff in H. destruct H as [Hc Hx].
  destruct (Ascii.eqb c ")"); [discriminate|].
  rewrite Hc. specialize (IH Hx). simpl in IH.
  destruct (Pattern.match_path (x ++ String ")" rest)) as [[p r]|];
    [discriminate | congruence].
Qed.

Lemma match_alt_unfold (s : string) :
  Pattern.match_alt s =
  match Pattern.match_tail s with
  | Some (p, rest) => Some ("", p, rest)
  | None =>
      match s with
      | "" => None
      | String c s' =>
          if Ascii.eqb c Py.nl then None
          else match Pattern.match_alt s' with
               | Some (a, p, rest) => Some (String c a, p, rest)
               | None => None
               end
      end
  end.
Proof. destruct s; reflexivity. Qed.

Lemma match_tail_spec (s p rest : string) :
  Pattern.match_tail s = Some (p, rest) ->
  exists s', s = "](" ++ s' /\ Pattern.match_path s' = Some (p, rest).
Proof.
  unfold Pattern.match_tail.
  destruct s as [|c [|d s']]; try discriminate.
  - destruct c as [[] [] [] [] [] [] [] []]; discriminate.
  - destruct c as [[] [] [] [] [] [] [] []]; try discriminate.
    destruct d as [[] [] [] [] [] [] [] []]; try discriminate.
    intros H. now exists s'.
Qed.

Lemma match_alt_spec (s a p rest : string) :
  Pattern.match_alt s = Some (a, p, rest) ->
  s = a ++ "](" ++ p ++ ")" ++ rest
  /\ Py.has_char Py.nl a = false
  /\ no_pair "]" "(" a = true
  /\ Py.has_char ")" p = false
  /\ Py.has_char Py.nl p = false.
Proof.
  revert a. induction s as [|c s IH]; intros a; rewrite match_alt_unfold.
  - simpl. discriminate.
  - destruct (Pattern.match_tail (String c s)) as [[p' r']|] eqn:Et.
    + intros [= <- <- <-]. apply match_tail_spec in Et.
      destruct Et as [s' [-> Hp]]. apply match_path_spec in Hp.
      destruct Hp as [-> [Hc Hn]]. auto.
    + destruct (Ascii.eqb c Py.nl) eqn:En; [discriminate|].
      destruct (Pattern.match_alt s) as [[[a' p'] r']|]; [|discriminate].
      intros [= <- <- <-].
      destruct (IH a' eq_refl) as [-> [Hna [Hpa [Hc Hn]]]].
      split; [reflexivity|]. split; [simpl; now rewrite En|].
      split; [|auto].
      destruct a' as [|d a'']; [reflexivity|].
      change (no_pair "]" "(" (String c (String d a'')))
        with (negb (Ascii.eqb c "]" && Ascii.eqb d "(")
              && no_pair "]" "(" (String d a'')).
      rewrite Hpa, andb_true_r.
      destruct (Ascii.eqb c "]") eqn:Ec; [|reflexivity].
      destruct (Ascii.eqb d "(") eqn:Ed; [|reflexivity].
      exfalso. apply Ascii.eqb_eq in Ec, Ed. subst c d.
      simpl in Hna. 
      change (String "]" (String "(" a'' ++ "](" ++ p' ++ ")" ++ r'))
        with ("](" ++ (a'' ++ "](" ++ p' ++ ")" ++ r')) in Et.
      unfold Pattern.match_tail in Et. simpl in Et.
      apply (match_path_closes (a'' ++ "](" ++ p') r').
      * rewrite !has_char_append, Hna, Hn. reflexivity.
      * rewrite <- Et. f_equal. now rewrite !append_assoc.
Qed.

Lemma group0_append (a p rest : string) :
  Pattern.group0 a p ++ rest = "![" ++ a ++ "](" ++ p ++ ")" ++ rest.
Proof.
  unfold Pattern.group0. cbn [append].
  repeat (rewrite append_assoc; cbn [append]). reflexivity.
Qed.

Lemma match_at_spec (s a p rest : string) :
  Pattern.match_at s = Some (a, p, rest) ->
  s = Pattern.group0 a p ++ rest
  /\ no_pair "]" "(" a = true
  /\ Py.has_char ")" p = false.
Proof.
  unfold Pattern.match_at.
  destruct s as [|c [|d s']]; try discriminate.
  - destruct c as [[] [] [] [] [] [] [] []]; discriminate.
  - destruct c as [[] [] [] [] [] [] [] []]; try discriminate.
    destruct d as [[] [] [] [] [] [] [] []]; try discriminate.
    intros H. apply match_alt_spec in H.
    destruct H as [-> [_ [Ha [Hp _]]]].
    rewrite group0_append. auto.
Qed.

(** ** The scan of a text *)

Lemma scan_from_skip (x rest : string) :
  Pattern.scan_from (String.length x) (x ++ rest) = Pattern.scan_from 0 rest.
Proof. induction x as [|c x IH]; [reflexivity | exact IH]. Qed.

Lemma scan_cons_ref (s a p rest : string) :
  Pattern.match_at s = Some (a, p, rest) ->
  Pattern.scan s = Pattern.Ref a p :: Pattern.scan rest.
Proof.
  intros H. pose proof (match_at_spec _ _ _ _ H) as [E _].
  unfold Pattern.scan. destruct s as [|c s']; [discriminate|].
  cbn [Pattern.scan_from]. rewrite H. f_equal.
  unfold Pattern.group0 in *. cbn [append] in E. injection E as _ E.
  rewrite E.
  change (String.length ("![" ++ a ++ "](" ++ p ++ ")") - 1)
    with (String.length (String "[" (a ++ "](" ++ p ++ ")"))).
  apply (scan_from_skip (String "[" (a ++ "](" ++ p ++ ")")) rest).
Qed.

Lemma scan_cons_lit (c : ascii) (s : string) :
  Pattern.match_at (String c s) = None ->
  Pattern.scan (String c s) = Pattern.Lit c :: Pattern.scan s.
Proof. intros H. unfold Pattern.scan. cbn [Pattern.scan_from]. now rewrite H. Qed.

(** Induction along the scan: a character that opens no match, or a
    match and the text after it. *)
Lemma scan_ind (P : string -> list Pattern.token -> Prop) :
  P "" [] ->
  (forall c s,
      Pattern.match_at (String c s) = None ->
      P s (Pattern.scan s) ->
      P (String c s) (Pattern.Lit c :: Pattern.scan s)) ->
  (forall a p rest,
      Pattern.match_at (Pattern.group0 a p ++ rest) = Some (a, p, rest) ->
      no_pair "]" "(" a = true ->
      Py.has_char ")" p = false ->
      P rest (Pattern.scan rest) ->
      P (Pattern.group0 a p ++ rest) (Pattern.Ref a p :: Pattern.scan rest)) ->
  forall s, P s (Pattern.scan s).
Proof.
  intros Hnil Hlit Href s.
  remember (String.length s) as n eqn:Hn.
  revert s Hn. induction n as [n IH] using lt_wf_ind. intros s Hn.
  destruct s as [|c s]; [exact Hnil|].
  destruct (Pattern.match_at (String c s)) as [[[a p] rest]|] eqn:Hm.
  - pose proof (match_at_spec _ _ _ _ Hm) as [E [Ha Hp]].
    rewrite (scan_cons_ref _ _ _ _ Hm). rewrite E in Hm |- *.
    apply Href; try assumption.
    apply (IH (String.length rest)); [|reflexivity].
    subst n. rewrite E, length_append. unfold Pattern.group0. simpl. lia.
  - rewrite (scan_cons_lit _ _ Hm). apply Hlit; [exact Hm|].
    apply (IH (String.length s)); [|reflexivity]. subst n. simpl. lia.
Qed.

(** ** Rewriting references in place *)


(** ** [str.replace] along a text *)









(** ** Where a match ends *)











(** ** The file name of a reference *)

Lemma lstrip_suffix (s : string) : exists u, s = u ++ Py.lstrip s.
Proof.
  induction s as [|c s [u IH]]; [now exists ""|]. simpl.
  destruct (Py.isspace c).
  - exists (String c u). simpl. now rewrite <- IH.
  - now exists "".
Qed.

Lemma rstrip_prefix (s : string) : exists v, s = Py.rstrip s ++ v.
Proof.
  induction s as [|c s [v IH]]; [now exists ""|]. simpl.
  destruct (Py.rstrip s) as [|d r].
  - destruct (Py.isspace c).
    + now exists (String c s).
    + exists s. reflexivity.
  - exists v. simpl in *. now rewrite <- IH.
Qed.

Lemma strip_sub (s : string) : exists u v, s = u ++ Py.strip s ++ v.
Proof.
  destruct (lstrip_suffix s) as [u Hu].
  destruct (rstrip_prefix (Py.lstrip s)) as [v Hv].
  exists u, v. unfold Py.strip. now rewrite <- Hv.
Qed.

Lemma split_head_prefix (sep : ascii) (s h : string) (t : list string) :
  Py.split sep s = h :: t -> exists v, s = h ++ v.
Proof.
  revert h t. induction s as [|c s IH]; intros h t; simpl.
  - intros [= <- <-]. now exists "".
  - destruct (Ascii.eqb c sep).
    + intros [= <- <-]. now exists (String c s).
    + destruct (Py.split sep s) as [|h' t'] eqn:E;
        [now apply split_not_nil in E|].
      intros [= <- <-]. destruct (IH h' t' eq_refl) as [v ->].
      now exists v.
Qed.

Lemma split_sub (sep : ascii) (s x : string) :
  In x (Py.split sep s) ->
  (exists u v, s = u ++ x ++ v) /\ Py.has_char sep x = false.
Proof.
  revert x. induction s as [|c s IH]; intros x; simpl.
  - intros [<- | []]. split; [now exists "", "" | reflexivity].
  - destruct (Ascii.eqb c sep) eqn:Ec.
    + intros [<- | Hin].
      * split; [now exists "", (String c s) | reflexivity].
      * destruct (IH x Hin) as [[u [v ->]] Hx]. split; [|exact Hx].
        now exists (String c u), v.
    + destruct (Py.split sep s) as [|h t] eqn:E;
        [now apply split_not_nil in E|].
      intros [<- | Hin].
      * destruct (split_head_prefix _ _ _ _ E) as [v ->].
        split; [now exists "", v|].
        simpl. rewrite Ec. apply (IH h). now left.
      * destruct (IH x (or_intror Hin)) as [[u [v ->]] Hx].
        split; [|exact Hx]. now exists (String c u), v.
Qed.

Lemma final_In (l : list string) : l <> [] -> In (Py.final l) l.
Proof.
  unfold Py.final. induction l as [|x l IH]; [congruence|]. intros _.
  destruct l as [|y l]; [now left|].
  right. apply IH. discriminate.
Qed.

(** The file name is a piece of the path as written, holds no slash and
    is not a single dot. *)
Lemma image_name_sub (p : string) :
  (exists u v, p = u ++ image_name p ++ v)
  /\ Py.has_char "/" (image_name p) = false
  /\ image_name p <> ".".
Proof.
  unfold image_name, path_name.
  set (ok := fun x => negb (String.eqb x "") && negb (String.eqb x ".")).
  destruct (filter ok (Py.split "/" (Py.strip p))) as [|x l] eqn:E.
  - split; [now exists "", p|]. split; [reflexivity | discriminate].
  - assert (Hin : In (Py.final (x :: l)) (filter ok (Py.split "/" (Py.strip p)))).
    { rewrite E. apply final_In. discriminate. }
    apply filter_In in Hin. destruct Hin as [Hin Hok].
    apply split_sub in Hin. destruct Hin as [[u [v Huv]] Hsl].
    destruct (strip_sub p) as [u' [v' Hp]].
    split; [|split; [exact Hsl|]].
    + exists (u' ++ u), (v ++ v'). rewrite Hp at 1. rewrite Huv.
      now rewrite !append_assoc.
    + unfold ok in Hok. apply andb_true_iff in Hok. destruct Hok as [_ Hd].
      apply negb_true_iff in Hd. now apply String.eqb_neq in Hd.
Qed.



(** ** The image pass, one replacement at a time *)








(** ** The image pass as a whole *)




Lemma In_matches (a p : string) (ts : list Pattern.token) :
  In (a, p) (Pattern.matches ts) <-> In (Pattern.Ref a p) ts.
Proof.
  induction ts as [|[c | a' p'] ts IH]; simpl.
  - reflexivity.
  - rewrite IH. split; [now right | intros [H | H]; [discriminate | exact H]].
  - rewrite IH. split; (intros [H | H]; [left; congruence | now right]).
Qed.



Lemma image_pass_found (exists_ : string -> bool) (ms : list (string * string)) :
  forall text found,
    snd (fold_left
           (fun '(modified_text, images_found) '(alt_text, image_path) =>
              if exists_ (image_name image_path) then
                (Py.replace modified_text (Pattern.group0 alt_text image_path)
                   (new_ref alt_text image_path),
                 images_found ++ [image_name image_path])%list
              else (modified_text, images_found))
           ms (text, found)) =
    (found
     ++ map (fun '(_, p) => image_name p)
          (filter (fun '(_, p) => exists_ (image_name p)) ms))%list.
Proof.
  induction ms as [|[a p] ms IH]; intros text found.
  - simpl. now rewrite app_nil_r.
  - cbn [fold_left filter]. destruct (exists_ (image_name p)).
    + rewrite IH. cbn [map]. now rewrite <- app_assoc.
    + apply IH.
Qed.




(** * Further properties *)

(** ** The index in five digits *)

Lemma uint_of_zeros (k : nat) (s : string) (d : uint) :
  NilEmpty.uint_of_string s = Some d ->
  exists d', NilEmpty.uint_of_string (Py.zeros k ++ s) = Some d'
             /\ Nat.of_uint d' = Nat.of_uint d.
Proof.
  intros H. induction k as [|k [d' [E Hd]]]; [now exists d|].
  exists (D0 d'). simpl. rewrite E. split; [reflexivity | exact Hd].
Qed.

(** Reading the formatted index gives the index back. *)
Lemma index_of_fmt (i : nat) : index_of (Py.fmt_05d i) = Some i.
Proof.
  unfold index_of, Py.fmt_05d, Py.decimal.
  destruct (uint_of_zeros
              (5 - String.length (NilEmpty.string_of_uint (Nat.to_uint i)))
              _ _ (NilEmpty.usu (Nat.to_uint i))) as [d' [E Hd]].
  rewrite E. simpl. now rewrite Hd, DecimalNat.Unsigned.of_to.
Qed.

Lemma fmt_05d_inj (i j : nat) : Py.fmt_05d i = Py.fmt_05d j -> i = j.
Proof.
  intros E. pose proof (index_of_fmt i) as Hi.
  rewrite E, index_of_fmt in Hi. now injection Hi.
Qed.

Lemma digits_no_dash (s : string) (d : uint) :
  NilEmpty.uint_of_string s = Some d -> Py.has_char "-" s = false.
Proof.
  revert d. induction s as [|c s IH]; intros d; [reflexivity|]. simpl.
  destruct (NilEmpty.uint_of_string s) as [d'|]; [|discriminate].
  intros H. apply uint_of_char_spec in H. rewrite (IH d' eq_refl).
  destruct H as [[-> _] | [[-> _] | [[-> _] | [[-> _] | [[-> _] |
                [[-> _] | [[-> _] | [[-> _] | [[-> _] | [-> _]]]]]]]]]];
    reflexivity.
Qed.

Lemma fmt_05d_no_dash (i : nat) : Py.has_char "-" (Py.fmt_05d i) = false.
Proof.
  pose proof (index_of_fmt i) as H. unfold index_of in H.
  destruct (NilEmpty.uint_of_string (Py.fmt_05d i)) as [d|] eqn:E;
    [|discriminate].
  exact (digits_no_dash _ _ E).
Qed.

(** A text is cut in one way only at the first occurrence of a
    character. *)
Lemma first_char_cut (c : ascii) (u u' x y : string) :
  Py.has_char c u = false -> Py.has_char c u' = false ->
  u ++ String c x = u' ++ String c y -> u = u' /\ x = y.
Proof.
  revert u'. induction u as [|a u IH]; intros u' Hu Hu' E.
  - destruct u' as [|a' u']; simpl in E.
    + injection E as E. now split.
    + injection E as <- _. simpl in Hu'. now rewrite Ascii.eqb_refl in Hu'.
  - destruct u' as [|a' u']; simpl in E.
    + injection E as -> _. simpl in Hu. now rewrite Ascii.eqb_refl in Hu.
    + injection E as <- E. simpl in Hu, Hu'.
      apply orb_false_iff in Hu, Hu'.
      destruct (IH u' (proj2 Hu) (proj2 Hu') E) as [-> ->]. now split.
Qed.

Lemma chapter_href_inj (i j : nat) (f g : string) :
  chapter_href i f = chapter_href j g -> i = j.
Proof.
  unfold chapter_href, chapter_id. intros E.
  rewrite !append_assoc in E. cbn [append] in E. injection E as E.
  apply first_char_cut in E; try apply fmt_05d_no_dash.
  destruct E as [E _]. now apply fmt_05d_inj.
Qed.

(** ** Lists with their indices *)

Lemma enumerate_from_bounds (A : Type) (l : list A) (k i : nat) (x : A) :
  In (i, x) (Py.enumerate_from k l) -> k <= i /\ nth_error l (i - k) = Some x.
Proof.
  revert k. induction l as [|y l IH]; intros k; simpl; [intros []|].
  intros [[= <- <-] | H].
  - rewrite Nat.sub_diag. split; [lia | reflexivity].
  - destruct (IH (S k) H) as [Hle Hn]. split; [lia|].
    replace (i - k) with (S (i - S k)) by lia. exact Hn.
Qed.

(** Values computed from distinct indices are distinct. *)
Lemma NoDup_by_index (A B : Type) (g : nat * A -> B) (l : list A) :
  (forall i j x y, g (i, x) = g (j, y) -> i = j) ->
  forall k, NoDup (map g (Py.enumerate_from k l)).
Proof.
  intros Hg. induction l as [|x l IH]; intros k; simpl; constructor.
  - intros Hin. apply in_map_iff in Hin. destruct Hin as [[j y] [E Hin]].
    apply enumerate_from_bounds in Hin. apply Hg in E. lia.
  - apply IH.
Qed.

(** ** Cross-references of the package document *)

Lemma manifest_ids_shape (mds imgs css : list string) (d : description) :
  manifest_ids (packageOPF_document mds imgs css d) =
  ([Some "toc"; Some "ncx"; Some "titlepage"]
   ++ map (fun x : nat * string => Some ("s" ++ Py.fmt_05d (fst x))%string)
        (Py.enumerate mds)
   ++ map (fun x : nat * string => Some ("image-" ++ Py.fmt_05d (fst x))%string)
        (Py.enumerate imgs)
   ++ map (fun x : nat * string => Some ("css-" ++ Py.fmt_05d (fst x))%string)
        (Py.enumerate css))%list.
Proof.
  unfold manifest_ids. rewrite opf_manifest_items.
  rewrite !map_app, !map_map.
  rewrite (map_ext (fun x => getAttribute (chapter_item x) "id")
             (fun x : nat * string => Some ("s" ++ Py.fmt_05d (fst x))))
    by (now intros [i f]).
  rewrite (map_ext (fun x => getAttribute (image_item (cover_image d) x) "id")
             (fun x : nat * string => Some ("image-" ++ Py.fmt_05d (fst x))))
    by (now intros [i f]).
  rewrite (map_ext (fun x => getAttribute (css_item x) "id")
             (fun x : nat * string => Some ("css-" ++ Py.fmt_05d (fst x))))
    by (now intros [i f]).
  reflexivity.
Qed.

(** Two lists whose elements start differently share no element. *)
Ltac apart :=
  let a := fresh "a" in
  let Ha := fresh "Ha" in
  let Hb := fresh "Hb" in
  intros a Ha Hb;
  repeat match goal with
    | H : In _ (_ ++ _)%list |- _ =>
        apply in_app_or in H; destruct H as [H | H]
    | H : In _ (map _ _) |- _ =>
        apply in_map_iff in H; destruct H as [[? ?] [? _]]
    | H : In _ (_ :: _) |- _ => destruct H as [H | H]
    | H : In _ [] |- _ => destruct H
    end;
  cbn [append fst] in *; congruence.

(** X1. No two items of the manifest have the same id, whatever the
    chapters, images and style sheets are. *)
Theorem manifest_ids_are_distinct :
  forall mds imgs css d,
    NoDup (manifest_ids (packageOPF_document mds imgs css d)).
Proof.
  intros mds imgs css d. rewrite manifest_ids_shape.
  assert (Hinj : forall (pre : string) (i j : nat) (x y : string),
             Some (pre ++ Py.fmt_05d (fst (i, x))) =
             Some (pre ++ Py.fmt_05d (fst (j, y))) -> i = j).
  { intros pre i j x y [= E]. apply fmt_05d_inj.
    induction pre as [|c pre IH]; [exact E|].
    simpl in E. injection E as E. now apply IH. }
  repeat apply NoDup_app;
    try (apply NoDup_by_index; intros i j x y; apply Hinj);
    try apart.
  repeat constructor; simpl; intuition discriminate.
Qed.

(** X2. Every reference inside the package document resolves: each
    spine itemref names the id of a manifest item that is an XHTML
    document, the spine's toc attribute names the NCX item, the guide
    points at the href of a manifest item, and the spine holds the title
    page and one itemref per chapter. *)
Theorem package_references_resolve :
  forall mds imgs css d,
    let package := packageOPF_document mds imgs css d in
    (forall itemref,
        In itemref (opf_children "spine" package) ->
        exists item idref,
          In item (opf_children "manifest" package)
          /\ getAttribute itemref "idref" = Some idref
          /\ getAttribute item "id" = Some idref
          /\ getAttribute item "media-type" = Some "application/xhtml+xml")
    /\ (forall spine,
           In spine (children_named "spine" package) ->
           exists item,
             In item (opf_children "manifest" package)
             /\ getAttribute spine "toc" = Some "ncx"
             /\ getAttribute item "id" = Some "ncx"
             /\ getAttribute item "media-type" = Some "application/x-dtbncx+xml")
    /\ (forall reference,
           In reference (opf_children "guide" package) ->
           exists item,
             In item (opf_children "manifest" package)
             /\ getAttribute reference "href" = Some "titlepage.xhtml"
             /\ getAttribute item "href" = Some "titlepage.xhtml")
    /\ List.length (opf_children "spine" package) = 1 + List.length mds.
Proof.
  intros mds imgs css d package. subst package.
  rewrite opf_manifest_items, opf_spine_itemrefs.
  split; [|split; [|split]].
  - intros itemref [<- | Hin].
    + exists (nth 2 manifest_head_items (Text "")), "titlepage".
      repeat split. apply in_or_app. left. simpl. auto.
    + apply in_map_iff in Hin. destruct Hin as [[i f] [<- Hin]].
      exists (chapter_item (i, f)), ("s" ++ Py.fmt_05d i).
      repeat split. apply in_or_app. right. apply in_or_app. left.
      now apply in_map.
  - intros spine Hin. rewrite packageOPF_shape in Hin.
    unfold children_named in Hin. simpl in Hin.
    destruct Hin as [<- | []].
    exists (nth 1 manifest_head_items (Text "")).
    repeat split. apply in_or_app. left. simpl. auto.
  - intros reference Hin. rewrite packageOPF_shape in Hin.
    unfold opf_children, children_named in Hin. simpl in Hin.
    destruct Hin as [<- | []].
    exists (nth 2 manifest_head_items (Text "")).
    repeat split. apply in_or_app. left. simpl. auto.
  - simpl. unfold Py.enumerate.
    now rewrite length_map, length_enumerate_from.
Qed.

(** X3. A meta element named cover is in the metadata exactly when the
    cover image of the description is one of the available images, and
    its content is then the id of a manifest item that carries the
    cover-image property and points at that image. *)
Theorem cover_meta_names_the_cover_item :
  forall mds imgs css d,
    let package := packageOPF_document mds imgs css d in
    (forall meta,
        In meta (opf_children "metadata" package) ->
        getAttribute meta "name" = Some "cover" ->
        exists item c,
          In item (opf_children "manifest" package)
          /\ cover_image d = Some c /\ In c imgs
          /\ getAttribute item "href" = Some ("images/" ++ c)
          /\ getAttribute item "properties" = Some "cover-image"
          /\ getAttribute item "id" <> None
          /\ getAttribute meta "content" = getAttribute item "id")
    /\ (forall c,
           cover_image d = Some c -> In c imgs ->
           exists meta,
             In meta (opf_children "metadata" package)
             /\ tagName meta = "meta"
             /\ getAttribute meta "name" = Some "cover").
Proof.
  intros mds imgs css d package. subst package.
  rewrite opf_manifest_items, opf_metadata_elements. split.
  - intros meta Hin Hname. apply in_app_or in Hin.
    destruct Hin as [Hin | Hin].
    + apply in_flat_map in Hin. destruct Hin as [kv [_ Hin]].
      apply metadata_element_id in Hin. destruct Hin as [_ [_ Hn]]. congruence.
    + apply cover_metas_In in Hin. destruct Hin as [i [f [Hin [Hc ->]]]].
      unfold is_cover in Hc. destruct (cover_image d) as [c|] eqn:Ec;
        [|discriminate].
      apply String.eqb_eq in Hc. subst f.
      exists (image_item (Some c) (i, c)), c.
      split.
      { apply in_or_app. right. apply in_or_app. right. apply in_or_app. left.
        now apply in_map. }
      split; [reflexivity|]. split.
      { apply enumerate_from_bounds in Hin. destruct Hin as [_ Hn].
        now apply nth_error_In in Hn. }
      destruct (image_item_attributes (Some c) i c) as [Hh [_ Hp]].
      split; [exact Hh|]. split.
      { apply Hp. unfold is_cover. apply String.eqb_refl. }
      unfold image_item, getAttribute. simpl. split; [discriminate | reflexivity].
  - intros c Ec Hin. apply In_nth_error in Hin. destruct Hin as [i Hi].
    apply nth_error_enumerate in Hi. apply nth_error_In in Hi.
    exists (Element "meta"
              [("name", "cover"); ("content", "image-" ++ Py.fmt_05d i)] []).
    split; [|split; reflexivity].
    apply in_or_app. right. unfold cover_metas. apply in_flat_map.
    exists (i, c). split; [exact Hi|].
    unfold is_cover. rewrite Ec, String.eqb_refl. now left.
Qed.

(** ** The names of the archive members *)

Lemma fromkeys_from_spec (l seen : list string) :
  (forall x, In x (Py.fromkeys_from seen l) <-> In x l /\ ~ In x seen)
  /\ NoDup (Py.fromkeys_from seen l).
Proof.
  revert seen. induction l as [|y l IH]; intros seen; simpl.
  - split; [intros x; tauto | constructor].
  - destruct (Py.mem y seen) eqn:E.
    + destruct (IH seen) as [Hin Hnd]. split; [|exact Hnd].
      intros x. rewrite Hin. apply mem_In in E. split.
      * intros [H1 H2]. auto.
      * intros [[<- | H1] H2]; [contradiction | auto].
    + destruct (IH (y :: seen)) as [Hin Hnd].
      assert (Hy : ~ In y seen).
      { intros H. apply mem_In in H. congruence. }
      split.
      * intros x. simpl. rewrite Hin. simpl. split.
        -- intros [<- | [H1 H2]]; [auto | split; [auto | tauto]].
        -- intros [[<- | H1] H2]; [now left|].
           destruct (string_dec y x) as [<- | Hn]; [now left|].
           right. split; [exact H1 | tauto].
      * constructor; [|exact Hnd]. rewrite Hin. simpl. tauto.
Qed.

Lemma fromkeys_spec (l : list string) :
  (forall x, In x (Py.fromkeys l) <-> In x l) /\ NoDup (Py.fromkeys l).
Proof.
  destruct (fromkeys_from_spec l []) as [Hin Hnd]. split; [|exact Hnd].
  intros x. unfold Py.fromkeys. rewrite Hin. simpl. tauto.
Qed.

Lemma NoDup_map_prefix (pre : string) (l : list string) :
  NoDup l -> NoDup (map (fun x => pre ++ x) l).
Proof.
  intros H. apply NoDup_map_NoDup_ForallPairs; [|exact H].
  intros x y _ _ E. induction pre as [|c pre IH]; [exact E|].
  simpl in E. injection E as E. now apply IH.
Qed.

Section ArchiveNames.

Variable toprettyxml : Minidom.node -> string.

Lemma archive_names (p : project) (json_data : description)
    (chapter_data : list (string * string)) :
  map arcname (write_epub toprettyxml p json_data chapter_data) =
  ([ "mimetype"; "META-INF/container.xml"; "OPS/package.opf";
     "OPS/titlepage.xhtml" ]
   ++ map (fun x : nat * string =>
             ("OPS/" ++ chapter_href (fst x) (snd x))%string)
        (Py.enumerate (map markdown (chapters json_data)))
   ++ map (fun image_name => ("OPS/images/" ++ image_name)%string)
        (get_all_filenames (option_map (map fst) (images p))
           ["gif"; "jpg"; "jpeg"; "png"])
   ++ [ "OPS/TOC.xhtml"; "OPS/toc.ncx" ]
   ++ map (fun css => ("OPS/css/" ++ css)%string)
        (filter
           (fun css =>
              match css_files p with
              | Some css_dir => Py.mem css (map fst css_dir)
              | None => false
              end)
           (Py.fromkeys (default_css json_data))))%list.
Proof.
  rewrite write_epub_layout. rewrite !map_app, !map_map.
  cbn [map arcname deflated].
  assert (Ecss : map arcname
                   (css_members p (Py.fromkeys (default_css json_data))) =
                 map fst
                   (map (fun m => (arcname m, compress_type m))
                      (css_members p (Py.fromkeys (default_css json_data)))))
    by (now rewrite map_map).
  rewrite Ecss, css_members_names, map_map. cbn [fst].
  rewrite (map_ext
             (fun x : nat * string =>
                arcname
                  (let '(i, md_filename) := x in
                   deflated ("OPS/" ++ chapter_href i md_filename)
                     (get_default md_filename "" chapter_data)))
             (fun x : nat * string =>
                "OPS/" ++ chapter_href (fst x) (snd x)))
    by (now intros [i f]).
  reflexivity.
Qed.

(** X4. When the entries of images/ have distinct names, as the entries
    of a directory do, no two members of the archive have the same name:
    chapters with the same base name, or a style sheet listed twice in
    the description, do not collide. *)
Theorem archive_names_are_distinct :
  forall p json_data chapter_data,
    NoDup (match images p with Some l => map fst l | None => [] end) ->
    NoDup (map arcname (write_epub toprettyxml p json_data chapter_data)).
Proof.
  intros p json_data chapter_data Himg. rewrite archive_names.
  assert (Hlist : NoDup (get_all_filenames (option_map (map fst) (images p))
                           ["gif"; "jpg"; "jpeg"; "png"])).
  { unfold get_all_filenames. destruct (images p) as [l|]; simpl.
    - now apply NoDup_filter.
    - constructor. }
  assert (Hcss : NoDup
                   (filter
                      (fun css =>
                         match css_files p with
                         | Some css_dir => Py.mem css (map fst css_dir)
                         | None => false
                         end)
                      (Py.fromkeys (default_css json_data))))
    by (apply NoDup_filter; apply fromkeys_spec).
  apply NoDup_app;
    [ repeat constructor; simpl; intuition discriminate
    | apply NoDup_app;
      [ apply NoDup_by_index; intros i j x y E; cbn [fst snd] in E;
        apply (chapter_href_inj i j x y); revert E; generalize (chapter_href i x);
        generalize (chapter_href j y); intros u v E; now injection E
      | apply NoDup_app;
        [ now apply NoDup_map_prefix
        | apply NoDup_app;
          [ repeat constructor; simpl; intuition discriminate
          | now apply NoDup_map_prefix
          | ]
        | ]
      | ]
    | ];
    intros a Ha Hb;
    repeat match goal with
      | H : In _ (_ ++ _)%list |- _ =>
          apply in_app_or in H; destruct H as [H | H]
      | H : In _ (map _ _) |- _ =>
          apply in_map_iff in H; destruct H as [? [? _]]
      | H : In _ (_ :: _) |- _ => destruct H as [H | H]
      | H : In _ [] |- _ => destruct H
      end;
    unfold chapter_href, chapter_id in *; cbn [append] in *; congruence.
Qed.

End ArchiveNames.

Lemma archive_names_are_distinct_witness :
  NoDup
    (map arcname
       (write_epub Minidom.writexml_document
          {| files := [("a.md", "One."); ("a.v2.md", "Two.")];
             description_json := None;
             images := Some [("pic.png", "bytes"); ("gift.png", "bytes")];
             css_files := Some [("stylesheet.css", "p {}")] |}
          {| metadata := [("dc:title", "T")];
             default_css := ["stylesheet.css"; "stylesheet.css"];
             chapters := [ {| markdown := "a.md"; css := "" |};
                           {| markdown := "a.v2.md"; css := "" |} ];
             cover_image := None |}
          [])).
Proof.
  apply archive_names_are_distinct. simpl.
  repeat constructor; simpl; intuition discriminate.
Defined.

(** ** What a build does to the project and to the archive *)

Lemma read_file_mem (name : string) (entries : list (string * string)) :
  Py.mem name (map fst entries) = true <-> read_file name entries <> None.
Proof.
  unfold read_file, Py.mem.
  induction entries as [|[k v] entries IH]; simpl.
  - split; [discriminate | congruence].
  - rewrite String.eqb_sym. destruct (String.eqb k name); simpl.
    + split; [discriminate | reflexivity].
    + exact IH.
Qed.

Lemma read_file_app (name : string) (l l' : list (string * string)) :
  read_file name (l ++ l') =
  match read_file name l with
  | Some bytes => Some bytes
  | None => read_file name l'
  end.
Proof.
  unfold read_file. induction l as [|[k v] l IH]; simpl; [reflexivity|].
  destruct (String.eqb k name); [reflexivity | exact IH].
Qed.

(** The style sheet after [ensure_stylesheet]: the one that was there, or
    the default one. *)
Lemma ensure_stylesheet_css (p : project) :
  exists css_dir,
    css_files (ensure_stylesheet p) = Some css_dir
    /\ read_file "stylesheet.css" css_dir =
       Some match css_files p with
            | Some l =>
                match read_file "stylesheet.css" l with
                | Some bytes => bytes
                | None => indent_css
                end
            | None => indent_css
            end
    /\ (forall name bytes l,
           css_files p = Some l -> read_file name l = Some bytes ->
           read_file name css_dir = Some bytes)
    /\ (forall name,
           read_file name css_dir <> None ->
           name = "stylesheet.css"
           \/ exists l, css_files p = Some l /\ read_file name l <> None).
Proof.
  unfold ensure_stylesheet. cbn [css_files].
  destruct (css_files p) as [l|] eqn:El.
  - destruct (Py.mem "stylesheet.css" (map fst l)) eqn:Em.
    + exists l. split; [reflexivity|]. split; [|split].
      * apply read_file_mem in Em.
        destruct (read_file "stylesheet.css" l); [reflexivity | congruence].
      * intros name bytes l' [= <-] H. exact H.
      * intros name H. right. now exists l.
    + assert (Hn : read_file "stylesheet.css" l = None).
      { destruct (read_file "stylesheet.css" l) eqn:E; [|reflexivity].
        assert (H : read_file "stylesheet.css" l <> None) by congruence.
        apply read_file_mem in H. congruence. }
      exists (l ++ [("stylesheet.css", indent_css)])%list.
      split; [reflexivity|]. split; [|split].
      * now rewrite read_file_app, Hn.
      * intros name bytes l' [= <-] H. now rewrite read_file_app, H.
      * intros name H. rewrite read_file_app in H.
        destruct (read_file name l) eqn:E.
        -- right. exists l. split; [reflexivity | congruence].
        -- left. unfold read_file in H. cbn [dict_get] in H.
           destruct (String.eqb "stylesheet.css" name) eqn:E';
             [|congruence].
           apply String.eqb_eq in E'. now subst.
  - exists [("stylesheet.css", indent_css)]. split; [reflexivity|].
    split; [reflexivity|]. split; [discriminate|].
    intros name H. left. unfold read_file in H. cbn [dict_get] in H.
    destruct (String.eqb "stylesheet.css" name) eqn:E'; [|congruence].
    apply String.eqb_eq in E'. now subst.
Qed.

Lemma load_description_stylesheet (input : string -> string) (now : clock)
    (p : project) :
  In "stylesheet.css" (default_css (load_description input now p)).
Proof.
  unfold load_description. cbn [default_css].
  destruct (Py.mem "stylesheet.css"
              (default_css (get_metadata_from_user input now _))) eqn:E;
    cbn [negb].
  - now apply mem_In in E.
  - apply in_or_app. right. now left.
Qed.


Section BuildFacts.

Variable toprettyxml : Minidom.node -> string.
Variable markdown_markdown : string -> string.
Variable input : string -> string.
Variable reviewer : string -> review_answer.

(** How [main] ends, case by case. *)
Lemma main_cases (now : clock) (p : project) (w : world) :
  let json_data := load_description input now (ensure_stylesheet p) in
  let p' := save_description json_data (ensure_stylesheet p) in
  (exists chapter_contents,
      review_chapters reviewer p' (chapters json_data) [] = inr chapter_contents
      /\ main toprettyxml markdown_markdown input reviewer now p w =
         ({| work_dir := Some p';
             epub := Some (write_epub toprettyxml p' json_data
                             (render_chapters markdown_markdown p' json_data
                                chapter_contents)) |},
          Completed))
  \/ (exists stop,
         review_chapters reviewer p' (chapters json_data) [] = inl stop
         /\ stop <> Completed
         /\ main toprettyxml markdown_markdown input reviewer now p w =
            ({| work_dir := Some p'; epub := epub w |}, stop)).
Proof.
  intros json_data p'. unfold main. fold json_data. fold p'.
  destruct (review_chapters reviewer p' (chapters json_data) [])
    as [stop | cc] eqn:E.
  - right. exists stop. split; [reflexivity|]. split; [|reflexivity].
    now apply review_chapters_stop in E.
  - left. now exists cc.
Qed.

(** X5. The archive of a completed build always holds
    OPS/css/stylesheet.css, deflated: with the bytes of css/stylesheet.css
    when the project had that file, and with the default style sheet
    when it had not. *)
Theorem completed_archive_has_stylesheet :
  forall now p w w',
    main toprettyxml markdown_markdown input reviewer now p w = (w', Completed) ->
    exists archive m,
      epub w' = Some archive /\ In m archive
      /\ arcname m = "OPS/css/stylesheet.css"
      /\ compress_type m = ZIP_DEFLATED
      /\ data m = match css_files p with
                  | Some l =>
                      match read_file "stylesheet.css" l with
                      | Some bytes => bytes
                      | None => indent_css
                      end
                  | None => indent_css
                  end.
Proof.
  intros now p w w' Hrun.
  destruct (main_cases now p w) as [[cc [_ E]] | [stop [_ [Hs E]]]];
    rewrite E in Hrun; [|inversion Hrun; congruence].
  injection Hrun as <-. cbn [epub].
  destruct (ensure_stylesheet_css p) as [css_dir [Ecss [Hread _]]].
  eexists. eexists. split; [reflexivity|].
  rewrite write_epub_layout. split; [|split; [|split]].
  - apply in_or_app. right. apply in_or_app. right. apply in_or_app. right.
    apply in_or_app. right.
    unfold css_members. cbn [save_description css_files]. rewrite Ecss.
    apply in_flat_map. exists "stylesheet.css". split.
    + apply fromkeys_spec. apply load_description_stylesheet.
    + rewrite Hread. now left.
  - reflexivity.
  - reflexivity.
  - reflexivity.
Qed.



End BuildFacts.

Lemma completed_archive_has_stylesheet_witness :
  exists archive m,
    epub (fst sample_build) = Some archive /\ In m archive
    /\ arcname m = "OPS/css/stylesheet.css"
    /\ compress_type m = ZIP_DEFLATED
    /\ data m = indent_css.
Proof.
  apply (completed_archive_has_stylesheet Minidom.writexml_document
           (fun s => s) (fun _ => "") (fun _ => ReviewNo) sample_clock
           sample_project sample_world (fst sample_build)).
  vm_compute. reflexivity.
Defined.

(** ** Metadata and chapters of the description *)

Section DescriptionFacts.

Variable input : string -> string.

(** The metadata that [get_metadata_from_user] returns: the seven fields,
    in the order of the prompts. *)
Lemma metadata_fields (now : clock) (existing : stored) :
  let m := match s_metadata existing with Some m => m | None => [] end in
  metadata (get_metadata_from_user input now existing) =
  [ ("dc:title",
     get_user_input input "Title"
       (get_default "dc:title" "Untitled Document" m));
    ("dc:creator",
     get_user_input input "Author(s)"
       (get_default "dc:creator" "Unknown Author" m));
    ("dc:identifier",
     get_user_input input "Unique Identifier"
       (get_default "dc:identifier" ("id-" ++ stamp now) m));
    ("dc:language",
     get_user_input input "Language (e.g., en, de, fr)"
       (get_default "dc:language" "en" m));
    ("dc:rights",
     get_user_input input "Rights"
       (get_default "dc:rights" "All rights reserved" m));
    ("dc:publisher",
     get_user_input input "Publisher"
       (get_default "dc:publisher" "PDF2EPUB" m));
    ("dc:date",
     get_user_input input "Publication Date (YYYY-MM-DD)"
       (get_default "dc:date" (today now) m)) ].
Proof. reflexivity. Qed.

Lemma get_user_input_empty (prompt default : string) :
  get_user_input input prompt default = "" -> default = "".
Proof.
  unfold get_user_input.
  destruct (String.eqb (Py.strip (input (prompt ++ " [" ++ default ++ "]: "))) "")
    eqn:E; cbn [negb]; [auto|].
  intros H. rewrite H in E. discriminate.
Qed.

Lemma get_default_empty (k default : string) (m : list (string * string)) :
  get_default k default m = "" -> default <> "" -> dict_get k m = Some "".
Proof.
  unfold get_default. destruct (dict_get k m); [now intros -> | congruence].
Qed.

(** X8. The metadata of a build has exactly the seven Dublin Core
    fields, in the order of the prompts, whatever description.json
    stores; and, the clock giving a date, a field is empty only when
    description.json stores it empty and the operator types nothing. *)
Theorem metadata_has_the_seven_fields :
  forall now existing,
    today now <> "" ->
    map fst (metadata (get_metadata_from_user input now existing)) =
    [ "dc:title"; "dc:creator"; "dc:identifier"; "dc:language"; "dc:rights";
      "dc:publisher"; "dc:date" ]
    /\ (forall k,
           dict_get k (metadata (get_metadata_from_user input now existing))
           = Some "" ->
           dict_get k
             (match s_metadata existing with Some m => m | None => [] end)
           = Some "").
Proof.
  intros now existing Htoday. rewrite metadata_fields. split; [reflexivity|].
  intros k. cbn [dict_get].
  repeat match goal with
    | |- context [String.eqb ?key k] =>
        destruct (String.eqb key k) eqn:?E;
        [ apply String.eqb_eq in E; subst k; intros [= H];
          apply get_user_input_empty in H;
          apply get_default_empty in H; [exact H | try discriminate; assumption]
        | clear E ]
    end.
  discriminate.
Qed.

End DescriptionFacts.

Lemma metadata_has_the_seven_fields_witness :
  map fst
    (metadata
       (get_metadata_from_user (fun _ => " My Book ") sample_clock
          {| s_metadata := Some [("dc:subject", "x"); ("dc:rights", "")];
             s_default_css := None; s_chapters := None;
             s_cover_image := None |})) =
  [ "dc:title"; "dc:creator"; "dc:identifier"; "dc:language"; "dc:rights";
    "dc:publisher"; "dc:date" ].
Proof.
  apply (metadata_has_the_seven_fields (fun _ => " My Book ") sample_clock
           {| s_metadata := Some [("dc:subject", "x"); ("dc:rights", "")];
              s_default_css := None; s_chapters := None;
              s_cover_image := None |}).
  discriminate.
Defined.

(** ** The chapter documents of the archive *)





Section ChapterDocuments.

Variable toprettyxml : Minidom.node -> string.
Variable markdown_markdown : string -> string.
Variable input : string -> string.
Variable reviewer : string -> review_answer.




End ChapterDocuments.


(** ** The manifest and the members of the archive *)



Section ManifestAndArchive.

Variable toprettyxml : Minidom.node -> string.


End ManifestAndArchive.

(** ** The chapter list of a first build *)

Lemma insert_sorted_perm (x : string) (l : list string) :
  Permutation (x :: l) (Py.insert_sorted x l).
Proof.
  induction l as [|y l IH]; simpl; [reflexivity|].
  destruct (String.leb x y); [reflexivity|].
  rewrite perm_swap. now constructor.
Qed.

Lemma sorted_perm (l : list string) : Permutation l (Py.sorted l).
Proof.
  induction l as [|x l IH]; simpl; [constructor|].
  rewrite <- insert_sorted_perm. now constructor.
Qed.

Lemma insert_sorted_hd (x y : string) (l : list string) :
  str_le y x -> HdRel str_le y l -> HdRel str_le y (Py.insert_sorted x l).
Proof.
  intros Hyx Hl. destruct l as [|z l]; simpl; [now constructor|].
  destruct (String.leb x z); constructor; [exact Hyx|].
  now inversion Hl.
Qed.

Lemma insert_sorted_sorted (x : string) (l : list string) :
  Sorted str_le l -> Sorted str_le (Py.insert_sorted x l).
Proof.
  induction 1 as [|y l Hs IH Hhd]; simpl.
  - repeat constructor.
  - destruct (String.leb x y) eqn:E.
    + constructor; [now constructor|]. now constructor.
    + constructor; [exact IH|]. apply insert_sorted_hd; [|exact Hhd].
      destruct (String.leb_total x y) as [H | H]; [congruence | exact H].
Qed.

Lemma sorted_sorted (l : list string) : Sorted str_le (Py.sorted l).
Proof.
  induction l as [|x l IH]; simpl; [constructor|].
  now apply insert_sorted_sorted.
Qed.

(** description.json, images/ and css/ are no chapter files. *)
Lemma listdir_md (p : project) :
  filter (fun f => Py.endswith f ".md") (listdir p) =
  filter (fun f => Py.endswith f ".md") (map fst (files p)).
Proof.
  unfold listdir. rewrite !filter_app.
  destruct (description_json p), (images p), (css_files p); cbn [filter];
    change (Py.endswith "description.json" ".md") with false;
    change (Py.endswith "images" ".md") with false;
    change (Py.endswith "css" ".md") with false;
    now rewrite ?app_nil_r.
Qed.

Lemma load_description_first (input : string -> string) (now : clock)
    (p : project) :
  stored_chapters p = [] ->
  chapters (load_description input now (ensure_stylesheet p)) =
  map (fun md_file => {| markdown := md_file; css := "" |})
    (Py.sorted (glob_md p)).
Proof.
  intros Hstored. unfold load_description. cbn [chapters].
  unfold get_metadata_from_user. cbn [chapters].
  assert (E : match
                s_chapters
                  match description_json (ensure_stylesheet p) with
                  | Some d => d
                  | None => no_description
                  end
              with
              | Some l => l
              | None => []
              end = []).
  { unfold stored_chapters in Hstored. cbn [ensure_stylesheet description_json].
    destruct (description_json p); [exact Hstored | reflexivity]. }
  rewrite E. unfold glob_md.
  now rewrite (listdir_md (ensure_stylesheet p)), (listdir_md p).
Qed.

(** X11. When description.json stores no chapters, the chapters of the
    build are the files of the project directory whose name ends in .md,
    each of them once, in the order of [str], and none with a style sheet
    of its own; a directory that passes the check of [convert_to_epub]
    so gives at least one chapter. *)
Theorem first_build_lists_the_markdown_files :
  forall input now p,
    stored_chapters p = [] ->
    let chs := chapters (load_description input now (ensure_stylesheet p)) in
    Permutation (map markdown chs) (glob_md p)
    /\ Sorted str_le (map markdown chs)
    /\ (forall ch, In ch chs -> css ch = "")
    /\ (glob_md p <> [] -> chs <> []).
Proof.
  intros input now p Hstored chs.
  assert (E : chs = map (fun md_file => {| markdown := md_file; css := "" |})
                      (Py.sorted (glob_md p)))
    by now apply load_description_first.
  assert (Em : map markdown chs = Py.sorted (glob_md p)).
  { rewrite E, map_map. cbn [markdown]. apply map_id. }
  split; [|split; [|split]].
  - rewrite Em. symmetry. apply sorted_perm.
  - rewrite Em. apply sorted_sorted.
  - intros ch Hin. rewrite E in Hin. apply in_map_iff in Hin.
    now destruct Hin as [f [<- _]].
  - intros Hglob Hnil. apply Hglob.
    apply Permutation_nil. rewrite (sorted_perm (glob_md p)), <- Em, Hnil.
    reflexivity.
Qed.

Lemma first_build_lists_the_markdown_files_witness :
  let p :=
    {| files := [("b.md", "Two."); ("notes.txt", "n"); ("a.md", "One.")];
       description_json := Some no_description;
       images := Some []; css_files := None |} in
  chapters (load_description (fun _ => "") sample_clock (ensure_stylesheet p))
  = [ {| markdown := "a.md"; css := "" |}; {| markdown := "b.md"; css := "" |} ]
  /\ Permutation ["a.md"; "b.md"] (glob_md p)
  /\ Sorted str_le ["a.md"; "b.md"].
Proof.
  intros p. split; [reflexivity|].
  destruct (first_build_lists_the_markdown_files (fun _ => "") sample_clock p
              eq_refl) as [Hperm [Hsorted _]].
  split; [exact Hperm | exact Hsorted].
Defined.

(** ** Building a second time *)

(** The operator who types nothing gets the default. *)
Lemma get_user_input_default (prompt default : string) :
  get_user_input (fun _ => "") prompt default = default.
Proof. reflexivity. Qed.




Section SecondBuild.

Variable toprettyxml : Minidom.node -> string.
Variable markdown_markdown : string -> string.
Variable input : string -> string.
Variable reviewer : string -> review_answer.


End SecondBuild.

(** ** What the image pass records and what it leaves *)

Lemma image_pass_nothing (exists_ : string -> bool)
    (ms : list (string * string)) :
  (forall a p, In (a, p) ms -> exists_ (image_name p) = false) ->
  forall text found,
    fold_left
      (fun '(modified_text, images_found) '(alt_text, image_path) =>
         if exists_ (image_name image_path) then
           (Py.replace modified_text (Pattern.group0 alt_text image_path)
              (new_ref alt_text image_path),
            images_found ++ [image_name image_path])%list
         else (modified_text, images_found))
      ms (text, found) = (text, found).
Proof.
  induction ms as [|[a p] ms IH]; intros Hms text found; [reflexivity|].
  cbn [fold_left]. rewrite (Hms a p (or_introl eq_refl)).
  apply IH. intros a' p' H. apply (Hms a' p'). now right.
Qed.

(** X13. When none of the references of a text names a file that is
    there, as when the project has no images/ directory, the image pass
    gives the text back as it is and records no image. *)
Theorem references_without_files_stay :
  forall exists_ text,
    (forall alt_text image_path,
        In (alt_text, image_path) (Pattern.finditer text) ->
        exists_ (image_name image_path) = false) ->
    process_markdown_for_images exists_ text = (text, []).
Proof.
  intros exists_ text H. unfold process_markdown_for_images.
  now apply image_pass_nothing.
Qed.

Lemma references_without_files_stay_witness :
  process_markdown_for_images (image_path_exists sample_project)
    "See ![x](sub/pic.png) and ![y](z.gif)."
  = ("See ![x](sub/pic.png) and ![y](z.gif).", []).
Proof.
  apply (references_without_files_stay (image_path_exists sample_project)).
  intros alt_text image_path _. reflexivity.
Defined.

(** X14. Every name that the image pass records is the file name of a
    reference of the text, it is a piece of the path of that reference
    without a slash, and the file of that name is there. *)
Theorem recorded_images_are_file_names :
  forall exists_ text name,
    In name (snd (process_markdown_for_images exists_ text)) ->
    exists_ name = true
    /\ Py.has_char "/" name = false
    /\ exists alt_text image_path u v,
         In (alt_text, image_path) (Pattern.finditer text)
         /\ name = image_name image_path
         /\ image_path = u ++ name ++ v.
Proof.
  intros exists_ text name Hin.
  unfold process_markdown_for_images in Hin.
  rewrite image_pass_found in Hin. cbn [Datatypes.app] in Hin.
  apply in_map_iff in Hin. destruct Hin as [[a p] [<- Hin]].
  apply filter_In in Hin. destruct Hin as [Hin He].
  destruct (image_name_sub p) as [[u [v Huv]] [Hslash _]].
  split; [exact He|]. split; [exact Hslash|].
  exists a, p, u, v. auto.
Qed.

Lemma recorded_images_are_file_names_witness :
  let exists_ := fun name => String.eqb name "pic.png" in
  exists_ "pic.png" = true
  /\ Py.has_char "/" "pic.png" = false
  /\ exists alt_text image_path u v,
       In (alt_text, image_path)
         (Pattern.finditer "![x](sub/dir/pic.png) ![y](gone.png)")
       /\ "pic.png" = image_name image_path
       /\ image_path = u ++ "pic.png" ++ v.
Proof.
  intros exists_.
  apply (recorded_images_are_file_names exists_
           "![x](sub/dir/pic.png) ![y](gone.png)" "pic.png").
  vm_compute. left. reflexivity.
Defined.

(** ** Matches of the image pattern *)

Lemma match_at_lines (s a p rest : string) :
  Pattern.match_at s = Some (a, p, rest) ->
  Py.has_char Py.nl a = false /\ Py.has_char Py.nl p = false.
Proof.
  unfold Pattern.match_at.
  destruct s as [|c [|d s']]; try discriminate.
  - destruct c as [[] [] [] [] [] [] [] []]; discriminate.
  - destruct c as [[] [] [] [] [] [] [] []]; try discriminate.
    destruct d as [[] [] [] [] [] [] [] []]; try discriminate.
    intros H. apply match_alt_spec in H.
    destruct H as [_ [Ha [_ [_ Hp]]]]. auto.
Qed.

Lemma match_alt_through (a s : string) :
  Py.has_char Py.nl a = false ->
  Pattern.match_tail s <> None ->
  Pattern.match_alt (a ++ s) <> None.
Proof.
  intros Ha Hs. induction a as [|c a IH]; rewrite match_alt_unfold.
  - cbn [append]. destruct (Pattern.match_tail s) as [[p' r]|];
      [discriminate | congruence].
  - cbn [append]. destruct (Pattern.match_tail (String c (a ++ s)))
      as [[p' r]|]; [discriminate|].
    simpl in Ha. apply orb_false_iff in Ha. destruct Ha as [Hc Ha].
    rewrite Hc. specialize (IH Ha).
    destruct (Pattern.match_alt (a ++ s)) as [[[a' p'] r]|];
      [discriminate | congruence].
Qed.

Lemma match_alt_finds (a p v : string) :
  Py.has_char Py.nl a = false ->
  Py.has_char Py.nl p = false ->
  Pattern.match_alt (a ++ "](" ++ p ++ ")" ++ v) <> None.
Proof.
  intros Ha Hp. apply match_alt_through; [exact Ha|].
  exact (match_path_closes p v Hp).
Qed.

Lemma scan_finds (a p v : string) :
  Py.has_char Py.nl a = false ->
  Py.has_char Py.nl p = false ->
  forall u,
    Pattern.matches (Pattern.scan (u ++ Pattern.group0 a p ++ v)) <> [].
Proof.
  intros Ha Hp u. induction u as [|c u IH].
  - cbn [append]. rewrite group0_append.
    pose proof (match_alt_finds a p v Ha Hp) as H.
    destruct (Pattern.match_at ("![" ++ a ++ "](" ++ p ++ ")" ++ v))
      as [[[a' p'] r]|] eqn:E.
    + rewrite (scan_cons_ref _ _ _ _ E). discriminate.
    + exfalso. apply H. exact E.
  - cbn [append].
    destruct (Pattern.match_at (String c (u ++ Pattern.group0 a p ++ v)))
      as [[[a' p'] r]|] eqn:E.
    + rewrite (scan_cons_ref _ _ _ _ E). discriminate.
    + rewrite (scan_cons_lit _ _ E). exact IH.
Qed.

(** X15. A match of the image pattern lies on one line of the text: it
    is a piece of the text of the form [![alt](path)] in which neither
    the alt text nor the path holds a line feed, the path holds no closing
    parenthesis and the alt text nowhere a closing bracket followed by an
    opening parenthesis.  And a text that holds a piece of that form on
    one line has at least one match. *)
Theorem matches_lie_on_one_line :
  forall text,
    (forall alt_text image_path,
        In (alt_text, image_path) (Pattern.finditer text) ->
        Py.has_char Py.nl alt_text = false
        /\ Py.has_char Py.nl image_path = false
        /\ Py.has_char ")" image_path = false
        /\ no_pair "]" "(" alt_text = true
        /\ exists u v, text = u ++ Pattern.group0 alt_text image_path ++ v)
    /\ (forall u alt_text image_path v,
           text = u ++ Pattern.group0 alt_text image_path ++ v ->
           Py.has_char Py.nl alt_text = false ->
           Py.has_char Py.nl image_path = false ->
           Pattern.finditer text <> []).
Proof.
  intros text. split.
  - intros a p Hin. apply In_matches in Hin. revert a p Hin.
    apply (scan_ind
             (fun s ts =>
                forall a p,
                  In (Pattern.Ref a p) ts ->
                  Py.has_char Py.nl a = false
                  /\ Py.has_char Py.nl p = false
                  /\ Py.has_char ")" p = false
                  /\ no_pair "]" "(" a = true
                  /\ exists u v, s = u ++ Pattern.group0 a p ++ v)).
    + intros a p [].
    + intros c s _ IH a p [H | H]; [discriminate|].
      destruct (IH a p H) as [Ha [Hp [Hc [Hd [u [v E]]]]]].
      repeat (split; [assumption|]).
      exists (String c u), v. cbn [append]. now rewrite <- E.
    + intros a0 p0 rest Hm Hd0 Hc0 IH a p [H | H].
      * injection H as <- <-.
        destruct (match_at_lines _ _ _ _ Hm) as [Ha Hp].
        repeat (split; [assumption|]).
        now exists "", rest.
      * destruct (IH a p H) as [Ha [Hp [Hc [Hd [u [v E]]]]]].
        repeat (split; [assumption|]).
        exists (Pattern.group0 a0 p0 ++ u), v.
        now rewrite append_assoc, <- E.
  - intros u a p v -> Ha Hp. now apply scan_finds.
Qed.

(** ** The lines of a chapter *)



Section ChapterLines.

Variable markdown_markdown : string -> string.


End ChapterLines.

(** ** The first conversion of a directory *)

Section FirstConversion.

Variable toprettyxml : Minidom.node -> string.
Variable markdown_markdown : string -> string.
Variable input : string -> string.
Variable reviewer : string -> review_answer.


End FirstConversion.


(** ** The images of the archive *)

Section ArchiveImages.

Variable toprettyxml : Minidom.node -> string.

(** X18. The image members of the archive are the entries of images/
    whose name ends, after its last dot, in gif, jpg, jpeg or png, each
    under OPS/images/ with the bytes of the file, whether or not a chapter
    refers to it: an entry with another ending is not packed, and no
    member under OPS/images/ is empty for want of a file. *)
Theorem archive_images_are_the_listed_files :
  forall p json_data chapter_data name,
    let archive := write_epub toprettyxml p json_data chapter_data in
    (forall m,
        In m archive -> arcname m = "OPS/images/" ++ name ->
        exists entries bytes,
          images p = Some entries
          /\ read_file name entries = Some bytes
          /\ data m = bytes
          /\ Py.mem (Py.final (Py.split "." name)) ["gif"; "jpg"; "jpeg"; "png"]
             = true)
    /\ (forall entries bytes,
           images p = Some entries ->
           read_file name entries = Some bytes ->
           Py.mem (Py.final (Py.split "." name)) ["gif"; "jpg"; "jpeg"; "png"]
           = true ->
           In (deflated ("OPS/images/" ++ name) bytes) archive).
Proof.
  intros p json_data chapter_data name archive. unfold archive. clear archive.
  rewrite write_epub_layout. split.
  - intros m Hin Hname.
    apply in_app_or in Hin. destruct Hin as [Hin | Hin].
    { destruct Hin as [<- | [<- | [<- | [<- | []]]]]; discriminate. }
    apply in_app_or in Hin. destruct Hin as [Hin | Hin].
    { apply in_map_iff in Hin. destruct Hin as [[i f] [<- _]].
      unfold chapter_href, chapter_id in Hname. discriminate. }
    apply in_app_or in Hin. destruct Hin as [Hin | Hin].
    { apply in_map_iff in Hin. destruct Hin as [f [<- Hin]].
      cbn [arcname deflated append] in Hname. injection Hname as ->.
      unfold get_all_filenames in Hin.
      destruct (images p) as [entries|]; [|destruct Hin].
      cbn [option_map] in Hin. apply filter_In in Hin.
      destruct Hin as [Hin Hext].
      apply mem_In, read_file_mem in Hin.
      destruct (read_file name entries) as [bytes|] eqn:Er; [|congruence].
      exists entries, bytes. repeat split; try assumption.
      cbn [data deflated]. unfold get_default. unfold read_file in Er.
      now rewrite Er. }
    apply in_app_or in Hin. destruct Hin as [Hin | Hin].
    { destruct Hin as [<- | [<- | []]]; discriminate. }
    unfold css_members in Hin.
    destruct (css_files p) as [css_dir|]; [|destruct Hin].
    apply in_flat_map in Hin. destruct Hin as [f [_ Hin]].
    destruct (read_file f css_dir); [|destruct Hin].
    destruct Hin as [<- | []]. discriminate.
  - intros entries bytes Himages Hread Hext.
    apply in_or_app. right. apply in_or_app. right. apply in_or_app. left.
    apply in_map_iff. exists name. split.
    + rewrite Himages. unfold get_default. unfold read_file in Hread.
      now rewrite Hread.
    + unfold get_all_filenames. rewrite Himages. cbn [option_map].
      apply filter_In. split; [|exact Hext].
      apply mem_In, read_file_mem. congruence.
Qed.

End ArchiveImages.
